(** * Vibration signal analysis of the sensor detail page

    A shallow embedding of the calculation code of the sensor detail page
    (calibration, trapezoidal integration, spectrum, statistics, top peaks,
    status) together with the properties the specification states about it.

    Number model.  A JavaScript [number] is modelled by a real number: the
    arithmetic of the page ([+], [-], [*], [/], [Math.sqrt], comparisons) is
    read as exact real arithmetic, IEEE-754 rounding and the special values
    [NaN] and [Infinity] are not modelled.  Array lengths and indices are
    natural numbers. *)

From Stdlib Require Import String Ascii DecimalString.
From Stdlib Require Import Reals Lra Lia List Arith PeanoNat ZArith Bool.
From Stdlib Require Import Sorting.Sorted Sorting.Permutation.
Import ListNotations.

Open Scope list_scope.
Open Scope R_scope.

(** * Part I: the model *)

(** ** Completions *)

(** A call either returns a value or throws (the message of the [Error]). *)
Inductive completion (A : Type) : Type :=
| Returns (value : A)
| Throws (message : string).
Arguments Returns {A} value.
Arguments Throws {A} message.

Definition bindC {A B : Type} (c : completion A) (k : A -> completion B)
  : completion B :=
  match c with
  | Returns a => k a
  | Throws m => Throws m
  end.

Notation "'let*' x ':=' c 'in' k" := (bindC c (fun x => k))
  (at level 10, x name, c at level 100, k at level 200).

(** ** Arrays *)

(** [Array.prototype.sort(comparefn)] is stable, and for a comparator that is
    a consistent ordering it returns the elements in ascending order of the
    comparator.  That order is unique; the stable insertion sort below
    computes it.  [comparefn a b > 0] places [b] before [a]. *)
Fixpoint insertSorted {A : Type} (comparefn : A -> A -> R) (x : A) (l : list A)
  : list A :=
  match l with
  | [] => [x]
  | y :: l' =>
      if Rlt_dec 0 (comparefn x y) then y :: insertSorted comparefn x l'
      else x :: l
  end.

Definition Array_sort {A : Type} (comparefn : A -> A -> R) (l : list A) : list A :=
  fold_right (insertSorted comparefn) [] l.

(** [array[i] = v] for an index inside the array. *)
Fixpoint Array_set {A : Type} (array : list A) (i : nat) (v : A) : list A :=
  match array, i with
  | [], _ => []
  | _ :: t, O => v :: t
  | h :: t, S i' => h :: Array_set t i' v
  end.

(** ** Calibration converter *)

(** [adcToAccelerationG(adcValue, range = 2)]: the [switch] on [range] compares
    with strict equality, every other value takes the [default] branch. *)
Definition sensitivityOf (range : R) : R :=
  if Req_dec_T range 2 then 17367
  else if Req_dec_T range 4 then 8684
  else if Req_dec_T range 8 then 4342
  else if Req_dec_T range 16 then 2171
  else 17367.

Definition adcToAccelerationG (adcValue : R) (range : R) : R :=
  let offset := 512 in
  let sensitivity := sensitivityOf range in
  (adcValue - offset) / sensitivity.

(** The default value of the parameter [range], taken when a caller passes
    one argument. *)
Definition defaultRange : R := 2.

Definition accelerationGToMmPerSecSquared (accelerationG : R) : R :=
  accelerationG * 9806.65.

(** ** Integrator *)

(** One iteration of the loop of [accelerationToVelocity]: the trapezoidal
    increment is added to the last element of [velocities] and pushed. *)
Definition velocityStep (accelerations : list R) (timeInterval : R)
  (velocities : list R) (i : nat) : list R :=
  let velocity :=
    0.5 * timeInterval * (nth i accelerations 0 + nth (i + 1) accelerations 0) in
  velocities ++ [nth (length velocities - 1) velocities 0 + velocity].

(** [accelerationToVelocity(accelerations, timeInterval)]: [velocities] starts
    as [[0]] and the loop runs for [i = 0 .. accelerations.length - 2]; for an
    empty array the bound [accelerations.length - 1] is negative and the loop
    does not run, which the truncated subtraction gives as well. *)
Definition accelerationToVelocity (accelerations : list R) (timeInterval : R)
  : list R :=
  fold_left (velocityStep accelerations timeInterval)
    (seq 0 (length accelerations - 1)) [0].

(** The state of the loop after [k] iterations. *)
Definition velocitiesAfter (accelerations : list R) (timeInterval : R) (k : nat)
  : list R :=
  fold_left (velocityStep accelerations timeInterval) (seq 0 k) [0].

(** ** The fft.js package

    The page imports [FFT] from the npm package fft.js, which is not part of
    the repository.  Two facts about it are modelled.  Its constructor starts
    with

      this.size = size | 0;
      if (this.size <= 1 || (this.size & (this.size - 1)) !== 0)
        throw new Error('FFT size must be a power of two and bigger than 1');

    and [realTransform(out, data)] writes into the caller's buffer [out]; what
    it writes is left open (a parameter of the spectral transformer).  The
    package documents that [realTransform] computes the bins 0 .. size/2 of
    the spectrum only and that [completeSpectrum] fills in the others; the
    page never calls [completeSpectrum]. *)

Record FFT : Type := { size : nat }.

Definition FFT_new (size : nat) : completion FFT :=
  if (size <=? 1)%nat || negb (Nat.land size (size - 1) =? 0)%nat
  then Throws "FFT size must be a power of two and bigger than 1"
  else Returns {| size := size |}.

(** ** Spectral transformer *)

Definition SAMPLING_RATE : R := 50.0.

(** [Math.pow(2, Math.ceil(Math.log2(length)))]; [Math.log2(0)] is
    [-Infinity] and [Math.pow(2, -Infinity)] is 0. *)
Definition nextPow2Of (length : nat) : nat :=
  match length with
  | O => 0
  | _ => 2 ^ Nat.log2_up length
  end.

(** [new Float64Array(nextPow2)] filled with the samples: the remaining slots
    keep their initial zeros. *)
Definition paddedInput (timeData : list R) (nextPow2 : nat) : list R :=
  timeData ++ repeat 0 (nextPow2 - length timeData).

(** The object [calculateFFT] returns. *)
Record Spectrum : Type := { magnitude : list R; frequency : list R }.

Section SpectralTransformer.

(** [realTransform fft data k] is the content of slot [k] of the output
    buffer after [fft.realTransform(output, data)]. *)
Variable realTransform : FFT -> list R -> nat -> R.

(** The buffer [new Float64Array(nextPow2 * 2)] after the transform. *)
Definition outputBuffer (fft : FFT) (input : list R) (nextPow2 : nat) : list R :=
  map (realTransform fft input) (seq 0 (nextPow2 * 2)).

(** The body of the loop over the bins: what is pushed to [magnitude]. *)
Definition binMagnitude (output : list R) (n : nat) (i : nat) : R :=
  let real := nth (i * 2) output 0 in
  let imag := nth (i * 2 + 1) output 0 in
  let abs := sqrt (real * real + imag * imag) in
  (2.56 / INR n) * abs.

(** What is pushed to [frequency]. *)
Definition binFrequency (n : nat) (i : nat) : R :=
  (INR i * SAMPLING_RATE) / INR n.

Definition calculateFFT (timeData : list R) : completion Spectrum :=
  let nextPow2 := nextPow2Of (length timeData) in
  let* fft := FFT_new nextPow2 in
  let input := paddedInput timeData nextPow2 in
  let output := outputBuffer fft input nextPow2 in
  let n := length timeData in
  let halfLength := n in
  Returns
    {| magnitude := map (binMagnitude output n) (seq 0 halfLength);
       frequency := map (binFrequency n) (seq 0 halfLength) |}.

End SpectralTransformer.

(** ** Chart data, statistics and top peaks

    The second version of the detail page imports the calculation functions
    from [@/lib/utils/sensorCalculations], a module that is not among the
    sources; the functions of the same names defined in the first version of
    the page (above) stand for them. *)

(** One entry of [datasets]. *)
Record Dataset : Type := {
  label : string;
  data : list R;
  borderColor : string;
  backgroundColor : string;
  tension : R;
  pointRadius : R;
  pointBackgroundColor : option (list string)
}.

Module TimeData.
Record t : Type := {
  labels : list string;
  rmsValue : string;
  peakValue : string;
  peakToPeakValue : string;
  datasets : list Dataset
}.
End TimeData.

Module FreqData.
Record t : Type := {
  labels : list R;
  datasets : list Dataset
}.
End FreqData.

Module TopPeak.
Record t : Type := { peak : R; rms : string; frequency : string }.
End TopPeak.

(** The object [prepareChartData] returns. *)
Record ChartData : Type := {
  timeData : TimeData.t;
  freqData : FreqData.t;
  yAxisLabel : string;
  rmsValue : string;
  peakValue : string;
  peakToPeakValue : string;
  topPeaks : list TopPeak.t
}.

Definition lineColor : string := "rgb(75, 192, 192)".
Definition fillColor : string := "rgba(75, 192, 192, 0.1)".
Definition pointColor : string := "rgba(75, 192, 192, 0.5)".

Definition emptyFreqData (datasetLabel : string) : FreqData.t :=
  {| FreqData.labels := [];
     FreqData.datasets :=
       [ {| label := datasetLabel; data := [];
            borderColor := lineColor; backgroundColor := fillColor;
            tension := 0.1; pointRadius := 3;
            pointBackgroundColor := Some [] |} ] |}.

(** The branch taken for a missing or empty [rawAxisData]. *)
Definition emptyChartData : ChartData :=
  {| timeData :=
       {| TimeData.labels := [];
          TimeData.rmsValue := "0.000";
          TimeData.peakValue := "0.000";
          TimeData.peakToPeakValue := "0.000";
          TimeData.datasets :=
            [ {| label := "No Data"; data := [];
                 borderColor := lineColor; backgroundColor := fillColor;
                 tension := 0.1; pointRadius := 0;
                 pointBackgroundColor := None |} ] |};
     freqData := emptyFreqData "No Data";
     yAxisLabel := "No Data";
     rmsValue := "0.000";
     peakValue := "0.000";
     peakToPeakValue := "0.000";
     topPeaks := [] |}.

(** The processed series and its axis label, by the selected unit. *)
Definition processData (rawAxisData : list R) (selectedUnit : string)
  (timeInterval : R) : list R * string :=
  if String.eqb selectedUnit "Acceleration (G)" then
    (map (fun adc => adcToAccelerationG adc defaultRange) rawAxisData, "G"%string)
  else if String.eqb selectedUnit "Acceleration (mm/s²)" then
    (map (fun adc =>
            accelerationGToMmPerSecSquared (adcToAccelerationG adc defaultRange))
         rawAxisData,
     "mm/s²"%string)
  else
    let accelerations :=
      map (fun adc =>
             accelerationGToMmPerSecSquared (adcToAccelerationG adc defaultRange))
          rawAxisData in
    (accelerationToVelocity accelerations timeInterval, "mm/s"%string).

(** "Calculate Overall Statistics in selected unit": the constants [rms],
    [peak] and [peakToPeak] of [prepareChartData]. *)
Record Statistics : Type := { rms : R; peak : R; peakToPeak : R }.

Definition overallStatistics (processedData : list R) : Statistics :=
  let rms :=
    if (0 <? length processedData)%nat
    then sqrt (fold_left (fun sum val => sum + val * val) processedData 0
               / INR (length processedData))
    else 0 in
  let peak := rms / 0.707 in
  let peakToPeak := peak * 2 in
  {| rms := rms; peak := peak; peakToPeak := peakToPeak |}.

(** The comparator [(a, b) => freqMagnitude[b] - freqMagnitude[a]]. *)
Definition byMagnitude (freqMagnitude : list R) (a b : nat) : R :=
  nth b freqMagnitude 0 - nth a freqMagnitude 0.

(** "Find indices of top 5 peaks". *)
Definition topIndicesOf (freqMagnitude : list R) : list nat :=
  firstn 5
    (Array_sort (byMagnitude freqMagnitude) (seq 0 (length freqMagnitude))).

Section ChartData.

Variable realTransform : FFT -> list R -> nat -> R.

(** [x.toFixed(digits)] and [String(x)]: the decimal renderings of a number
    are left open. *)
Variable toFixed : R -> nat -> string.
Variable numberToString : R -> string.

(** The part of [prepareChartData] after the transform: the frequency chart
    and the table of top peaks of a spectrum. *)
Definition frequencyDomain (yAxisLabel : string) (spectrum : Spectrum)
  : FreqData.t * list TopPeak.t :=
  let magnitude := magnitude spectrum in
  let frequency := frequency spectrum in
  if (length magnitude =? 0)%nat || (length frequency =? 0)%nat then
    (emptyFreqData (yAxisLabel ++ " Magnitude"), [])
  else
    let freqLabels := skipn 1 frequency in
    let freqMagnitude := skipn 1 magnitude in
    let topIndices :=
      if (0 <? length freqMagnitude)%nat then topIndicesOf freqMagnitude else [] in
    let pointBackgroundColor :=
      fold_left (fun colors idx => Array_set colors idx "red"%string)
        topIndices (repeat pointColor (length freqMagnitude)) in
    let topPeaks :=
      map (fun idx =>
             {| TopPeak.peak := nth idx freqMagnitude 0;
                TopPeak.rms := toFixed (nth idx freqMagnitude 0 * 0.707) 2;
                TopPeak.frequency := numberToString (nth idx freqLabels 0) |})
          topIndices in
    ({| FreqData.labels := freqLabels;
        FreqData.datasets :=
          [ {| label := yAxisLabel ++ " Magnitude"; data := freqMagnitude;
               borderColor := lineColor; backgroundColor := fillColor;
               tension := 0.1; pointRadius := 3;
               pointBackgroundColor := Some pointBackgroundColor |} ] |},
     topPeaks).

Definition prepareChartData (rawAxisData : list R) (selectedUnit : string)
  (timeInterval : R) : completion ChartData :=
  if (length rawAxisData =? 0)%nat then Returns emptyChartData
  else
    let n := length rawAxisData in
    let timeLabels :=
      map (fun i => toFixed (INR i * timeInterval) 2) (seq 0 n) in
    let '(processedData, yAxisLabel) :=
      processData rawAxisData selectedUnit timeInterval in
    let statistics := overallStatistics processedData in
    let rmsValue := toFixed (rms statistics) 3 in
    let peakValue := toFixed (peak statistics) 3 in
    let peakToPeakValue := toFixed (peakToPeak statistics) 3 in
    let timeChartData :=
      {| TimeData.labels := timeLabels;
         TimeData.rmsValue := rmsValue;
         TimeData.peakValue := peakValue;
         TimeData.peakToPeakValue := peakToPeakValue;
         TimeData.datasets :=
           [ {| label := yAxisLabel; data := processedData;
                borderColor := lineColor; backgroundColor := fillColor;
                tension := 0.1; pointRadius := 0;
                pointBackgroundColor := None |} ] |} in
    let* spectrum := calculateFFT realTransform processedData in
    let '(freqChartData, topPeaks) := frequencyDomain yAxisLabel spectrum in
    Returns
      {| timeData := timeChartData;
         freqData := freqChartData;
         yAxisLabel := yAxisLabel;
         rmsValue := rmsValue;
         peakValue := peakValue;
         peakToPeakValue := peakToPeakValue;
         topPeaks := topPeaks |}.

End ChartData.

(** ** Status *)

Inductive Status : Type := Normal | Warning | Critical.

(** The string literal of each status. *)
Definition statusText (s : Status) : string :=
  match s with
  | Normal => "Normal"
  | Warning => "Warning"
  | Critical => "Critical"
  end.

(** [rmsTotal > 0.8 ? "Critical" : rmsTotal > 0.5 ? "Warning" : "Normal"], the
    expression both versions of the page compute the vibration status with. *)
Definition vibrationStatus (rmsTotal : R) : Status :=
  if Rgt_dec rmsTotal 0.8 then Critical
  else if Rgt_dec rmsTotal 0.5 then Warning
  else Normal.

(** The state [vibrationStats] of the page. *)
Module VibrationStats.
Record t : Type := { rms : string; peak : string; status : string }.
End VibrationStats.

Section VibrationStatistics.

Variable toFixed : R -> nat -> string.

(** The branch of the effect taken when the axes hold single values:
    [Math.max] of three numbers is the larger of the first and the larger of
    the other two. *)
Definition vibrationStatsOfValues (hG vG aG : R) : VibrationStats.t :=
  let rmsTotal := sqrt ((hG * hG + vG * vG + aG * aG) / 3) in
  let peakTotal := Rmax (Rabs hG) (Rmax (Rabs vG) (Rabs aG)) in
  let status := statusText (vibrationStatus rmsTotal) in
  {| VibrationStats.rms := toFixed rmsTotal 3;
     VibrationStats.peak := toFixed peakTotal 3;
     VibrationStats.status := status |}.

End VibrationStatistics.

(** ** The first version of the detail page: statistics of the last data

    What the page reads from [sensorLastData.data] is tested at run time
    ([Array.isArray], [typeof x === "number"]), so an axis is an array of
    samples, a single number, or something else. *)

Inductive AxisValue : Type :=
| SampleArray (samples : list R)
| SingleValue (value : R)
| OtherValue.

Module LastData.
Record t : Type := { x : AxisValue; y : AxisValue; z : AxisValue }.
End LastData.

(** [typeof v === "number" ? v : 0]. *)
Definition numberOrZero (v : AxisValue) : R :=
  match v with
  | SingleValue value => value
  | _ => 0
  end.

(** [Math.max(...values)]; for no argument the result is [-Infinity], which
    is not a real number: [None]. *)
Definition Math_max (values : list R) : option R :=
  match values with
  | [] => None
  | v :: rest => Some (fold_left Rmax rest v)
  end.

(** [Math.min(...values)]; for no argument the result is [Infinity]:
    [None]. *)
Definition Math_min (values : list R) : option R :=
  match values with
  | [] => None
  | v :: rest => Some (fold_left Rmin rest v)
  end.

(** [Math.max(a, b)] where [None] stands for [-Infinity]. *)
Definition maxOrNegInfinity (a b : option R) : option R :=
  match a, b with
  | Some a, Some b => Some (Rmax a b)
  | Some a, None => Some a
  | None, b => b
  end.

(** [Math.sqrt(xG.reduce((sum, val) => sum + val * val, 0) / xG.length)]; for
    an empty array the quotient is 0 / 0, and the result [NaN]: [None]. *)
Definition rmsOfSamples (xG : list R) : option R :=
  match xG with
  | [] => None
  | _ => Some (sqrt (fold_left (fun sum val => sum + val * val) xG 0
                     / INR (length xG)))
  end.

(** [rmsTotal] and [peakTotal] of the branch taken for three arrays; [None]
    is [NaN] for [rmsTotal] and [-Infinity] for [peakTotal]. *)
Definition vibrationTotalsOfArrays (x y z : list R) : option R * option R :=
  let xG := map (fun adc => adcToAccelerationG adc defaultRange) x in
  let yG := map (fun adc => adcToAccelerationG adc defaultRange) y in
  let zG := map (fun adc => adcToAccelerationG adc defaultRange) z in
  let rmsTotal :=
    match rmsOfSamples xG, rmsOfSamples yG, rmsOfSamples zG with
    | Some rmsX, Some rmsY, Some rmsZ =>
        Some (sqrt ((rmsX * rmsX + rmsY * rmsY + rmsZ * rmsZ) / 3))
    | _, _, _ => None
    end in
  let peakX := Math_max (map Rabs xG) in
  let peakY := Math_max (map Rabs yG) in
  let peakZ := Math_max (map Rabs zG) in
  let peakTotal := maxOrNegInfinity peakX (maxOrNegInfinity peakY peakZ) in
  (rmsTotal, peakTotal).

(** The status expression on a [rmsTotal] that may be [NaN]: every
    comparison with [NaN] is false. *)
Definition statusOfRmsTotal (rmsTotal : option R) : Status :=
  match rmsTotal with
  | Some r => vibrationStatus r
  | None => Normal
  end.

(** The axis the selection names: ["H-axis"], ["V-axis"], else the third. *)
Definition selectAxis {A : Type} (selectedAxis : string) (h v a : A) : A :=
  if String.eqb selectedAxis "H-axis" then h
  else if String.eqb selectedAxis "V-axis" then v
  else a.

(** The processed series and its axis label in the first version of the
    page. *)
Definition processSelectedUnit (rawAxisData : list R) (selectedUnit : string)
  (timeInterval : R) : list R * string :=
  if String.eqb selectedUnit "Acceleration (G)" then
    (map (fun adc => adcToAccelerationG adc defaultRange) rawAxisData,
     "Acceleration (G)"%string)
  else if String.eqb selectedUnit "Acceleration (mm/s²)" then
    (map (fun adc =>
            accelerationGToMmPerSecSquared (adcToAccelerationG adc defaultRange))
         rawAxisData,
     "Acceleration (mm/s²)"%string)
  else
    let accelerations :=
      map (fun adc =>
             accelerationGToMmPerSecSquared (adcToAccelerationG adc defaultRange))
          rawAxisData in
    (accelerationToVelocity accelerations timeInterval, "Velocity (mm/s)"%string).

Module TimeChart.
Record t : Type := { labels : list string; datasets : list Dataset }.
End TimeChart.

(** The object [prepareVibrationData] returns. *)
Module VibrationData.
Record t : Type := {
  hasData : bool;
  timeData : option TimeChart.t;
  freqData : option FreqData.t;
  yAxisLabel : option string
}.
End VibrationData.

Definition noVibrationData : VibrationData.t :=
  {| VibrationData.hasData := false;
     VibrationData.timeData := None;
     VibrationData.freqData := None;
     VibrationData.yAxisLabel := None |}.

(** The numbers behind "Overall Statistics" of the first version of the
    page, computed from the raw samples of the selected axis: [rms], [peak]
    and [peakToPeak] before [toFixed(3)].  For an empty axis they are [NaN],
    [-Infinity] and [-Infinity]: [None]. *)
Definition rawAxisStatistics (axisData : list R) : option (R * R * R) :=
  let absValues := map Rabs axisData in
  let scaleFactor := 1000 in
  match Math_max absValues, Math_min absValues with
  | Some max, Some min =>
      Some (sqrt (fold_left (fun acc val => acc + val * val) absValues 0
                  / INR (length absValues)) / scaleFactor,
            max / scaleFactor,
            (max - min) / scaleFactor)
  | _, _ => None
  end.

Section FirstPage.

Variable realTransform : FFT -> list R -> nat -> R.
Variable toFixed : R -> nat -> string.

Definition vibrationStatsOfArrays (x y z : list R) : VibrationStats.t :=
  let '(rmsTotal, peakTotal) := vibrationTotalsOfArrays x y z in
  {| VibrationStats.rms :=
       match rmsTotal with Some r => toFixed r 3 | None => "NaN"%string end;
     VibrationStats.peak :=
       match peakTotal with
       | Some p => toFixed p 3
       | None => "-Infinity"%string
       end;
     VibrationStats.status := statusText (statusOfRmsTotal rmsTotal) |}.

(** The effect that computes [vibrationStats] when [sensorLastData] changes;
    [None] when there is no data and the state is left as it is. *)
Definition vibrationStatsEffect (sensorLastData : option LastData.t)
  : option VibrationStats.t :=
  match sensorLastData with
  | None => None
  | Some data =>
      let ofValues :=
        vibrationStatsOfValues toFixed
          (numberOrZero (LastData.x data)) (numberOrZero (LastData.y data))
          (numberOrZero (LastData.z data)) in
      match LastData.x data, LastData.y data, LastData.z data with
      | SampleArray x, SampleArray y, SampleArray z =>
          if (0 <? length x)%nat then Some (vibrationStatsOfArrays x y z)
          else Some ofValues
      | _, _, _ => Some ofValues
      end
  end.

(** [prepareVibrationData] of the first version of the page. *)
Definition prepareVibrationData (sensorLastData : option LastData.t)
  (selectedAxis selectedUnit : string) : completion VibrationData.t :=
  match sensorLastData with
  | None => Returns noVibrationData
  | Some data =>
      match LastData.x data, LastData.y data, LastData.z data with
      | SampleArray x, SampleArray y, SampleArray z =>
          if (length x =? 0)%nat then Returns noVibrationData
          else
            let rawAxisData := selectAxis selectedAxis x y z in
            let timeInterval := 1 / SAMPLING_RATE in
            let n := length rawAxisData in
            let timeLabels :=
              map (fun i => toFixed (INR i * timeInterval) 4) (seq 0 n) in
            let '(processedData, yAxisLabel) :=
              processSelectedUnit rawAxisData selectedUnit timeInterval in
            let timeChartData :=
              {| TimeChart.labels := timeLabels;
                 TimeChart.datasets :=
                   [ {| label := yAxisLabel; data := processedData;
                        borderColor := lineColor; backgroundColor := fillColor;
                        tension := 0.1; pointRadius := 0;
                        pointBackgroundColor := None |} ] |} in
            let* spectrum := calculateFFT realTransform processedData in
            let freqChartData :=
              {| FreqData.labels := frequency spectrum;
                 FreqData.datasets :=
                   [ {| label := yAxisLabel ++ " Magnitude";
                        data := magnitude spectrum;
                        borderColor := lineColor; backgroundColor := fillColor;
                        tension := 0.1; pointRadius := 0;
                        pointBackgroundColor := None |} ] |} in
            Returns
              {| VibrationData.hasData := true;
                 VibrationData.timeData := Some timeChartData;
                 VibrationData.freqData := Some freqChartData;
                 VibrationData.yAxisLabel := Some yAxisLabel |}
      | _, _, _ => Returns noVibrationData
      end
  end.

(** "Overall Statistics" as the first version of the page shows them. *)
Definition rawAxisStatisticsShown (axisData : list R) : string * string * string :=
  match rawAxisStatistics axisData with
  | Some (rms, peak, peakToPeak) =>
      (toFixed rms 3, toFixed peak 3, toFixed peakToPeak 3)
  | None => ("NaN"%string, "-Infinity"%string, "-Infinity"%string)
  end.

End FirstPage.

(** ** Numbers and strings of the language *)

(** [Math.ceil], [Math.floor] and [Math.round] (which rounds a half up). *)
Definition Math_ceil (x : R) : Z := Zceil x.
Definition Math_floor (x : R) : Z := Zfloor x.
Definition Math_round (x : R) : Z := Zfloor (x + 0.5).

(** [String(n)] for a natural number. *)
Definition natToString (n : nat) : string :=
  NilZero.string_of_uint (Nat.to_uint n).

Fixpoint zeros (count : nat) : string :=
  match count with
  | O => EmptyString
  | S count' => String "0"%char (zeros count')
  end.

(** [s.padStart(targetLength, '0')]. *)
Definition padStart0 (s : string) (targetLength : nat) : string :=
  zeros (targetLength - String.length s) ++ s.

(** [x.toFixed(digits)] for a number below 10^21 in absolute value, as the
    language defines it: the sign, then the integer n nearest to
    |x| * 10^digits (the larger one of two) written with at least digits + 1
    figures, a point before the last [digits] of them. *)
Definition Number_toFixed (x : R) (digits : nat) : string :=
  let sign := if Rlt_dec x 0 then "-"%string else ""%string in
  let n := Z.to_nat (Math_floor (Rabs x * 10 ^ digits + 0.5)) in
  let m := padStart0 (natToString n) (digits + 1) in
  let k := String.length m in
  if (digits =? 0)%nat then (sign ++ m)%string
  else (sign ++ substring 0 (k - digits) m ++ "."
        ++ substring (k - digits) digits m)%string.

(** [array.slice(start, end)] and [array.slice(start)] for indices that are
    natural numbers. *)
Definition Array_slice {A : Type} (array : list A) (start end_ : nat) : list A :=
  firstn (end_ - start) (skipn start array).

Definition Array_sliceFrom {A : Type} (array : list A) (start : nat) : list A :=
  skipn start array.

(** ** The sensor list view *)

Module SensorReading.
Record t : Type := {
  timestamp : R;
  temperature : R;
  vibrationX : R;
  vibrationY : R;
  vibrationZ : R
}.
End SensorReading.

(** The three tables of the list view: the slices of [sensors] at
    [Math.ceil(sensors.length / 3)] and [Math.ceil(sensors.length * 2 / 3)]. *)
Definition listViewTables {A : Type} (sensors : list A)
  : list A * list A * list A :=
  let first := Z.to_nat (Math_ceil (INR (length sensors) / 3)) in
  let second := Z.to_nat (Math_ceil (INR (length sensors) * 2 / 3)) in
  (Array_slice sensors 0 first,
   Array_slice sensors first second,
   Array_sliceFrom sensors second).

(** [Math.ceil(total / sensorsPerPage)], the number of pages both lists
    set. *)
Definition totalPagesOf (total sensorsPerPage : nat) : Z :=
  Math_ceil (INR total / INR sensorsPerPage).

Definition getTemperatureColor (temp : R) : string :=
  if Rgt_dec temp 35 then "text-red-500"
  else if Rgt_dec temp 30 then "text-yellow-500"
  else "text-green-500".

(** [currentTemp] of a row: the rounded temperature of the last reading, 0
    when there is no reading. *)
Definition currentTempOf (safeReadings : list SensorReading.t) : R :=
  let latestReading :=
    if (0 <? length safeReadings)%nat
    then nth_error safeReadings (length safeReadings - 1)
    else None in
  match latestReading with
  | Some reading => IZR (Math_round (SensorReading.temperature reading))
  | None => 0
  end.

(** ** The sensors table *)

Inductive SortField : Type := SerialNumber | MachineName | StatusField | LastUpdated.
Inductive SortDirection : Type := Asc | Desc.

Definition SortField_eqb (a b : SortField) : bool :=
  match a, b with
  | SerialNumber, SerialNumber | MachineName, MachineName
  | StatusField, StatusField | LastUpdated, LastUpdated => true
  | _, _ => false
  end.

Record SortState : Type := { sortField : SortField; sortDirection : SortDirection }.

Definition handleSort (field : SortField) (state : SortState) : SortState :=
  if SortField_eqb field (sortField state) then
    {| sortField := sortField state;
       sortDirection :=
         match sortDirection state with Asc => Desc | Desc => Asc end |}
  else {| sortField := field; sortDirection := Asc |}.

(** The fields of a sensor the table sorts by. *)
Module TableSensor.
Record t : Type := {
  serialNumber : string;
  machineName : string;
  status : string;
  lastUpdated : R
}.
End TableSensor.

Section SensorsTable.

(** [s.toLowerCase()] and [a.localeCompare(b)] are left open. *)
Variable toLowerCase : string -> string.
Variable localeCompare : string -> string -> R.

(** [a[sortField]?.toString().toLowerCase() || ""]. *)
Definition sortText (field : SortField) (a : TableSensor.t) : string :=
  let text :=
    match field with
    | SerialNumber => toLowerCase (TableSensor.serialNumber a)
    | MachineName => toLowerCase (TableSensor.machineName a)
    | StatusField => toLowerCase (TableSensor.status a)
    | LastUpdated => ""%string
    end in
  if String.eqb text "" then ""%string else text.

(** The comparator of the table. *)
Definition compareSensors (state : SortState) (a b : TableSensor.t) : R :=
  match sortField state with
  | LastUpdated =>
      match sortDirection state with
      | Asc => TableSensor.lastUpdated a - TableSensor.lastUpdated b
      | Desc => TableSensor.lastUpdated b - TableSensor.lastUpdated a
      end
  | field =>
      let aValue := sortText field a in
      let bValue := sortText field b in
      match sortDirection state with
      | Asc => localeCompare aValue bValue
      | Desc => localeCompare bValue aValue
      end
  end.

Definition sortSensors (state : SortState) (fetchedSensors : list TableSensor.t)
  : list TableSensor.t :=
  Array_sort (compareSensors state) fetchedSensors.

End SensorsTable.

(** ** Cards and temperature status of the second version of the page *)

Section Cards.

(** [SENSOR_CONSTANTS.MIN_TRASH_HOLE] and [SENSOR_CONSTANTS.MAX_TRASH_HOLE]
    come from a module that is not among the sources. *)
Variable MIN_TRASH_HOLE : R.
Variable MAX_TRASH_HOLE : R.

Definition getCardBackgroundColor (velocityValue : R) : string :=
  if Rlt_dec velocityValue MIN_TRASH_HOLE then "bg-green-900"
  else if Rgt_dec velocityValue MAX_TRASH_HOLE then "bg-red-900"
  else "bg-yellow-500".

End Cards.

(** The order of the card colours: green, yellow, red. *)
Definition cardColorRank (color : string) : nat :=
  if String.eqb color "bg-green-900" then 0
  else if String.eqb color "bg-yellow-500" then 1
  else 2.

(** [sensorLastData?.alarm_ths || 35]: a missing threshold and the threshold
    0 give 35. *)
Definition alarmThresholdOr35 (alarm_ths : option R) : R :=
  match alarm_ths with
  | Some threshold => if Req_dec_T threshold 0 then 35 else threshold
  | None => 35
  end.

(** The temperature status of the second version of the page. *)
Definition temperatureStatus (alarm_ths : option R) (safeTemp : R) : Status :=
  if Rgt_dec safeTemp (alarmThresholdOr35 alarm_ths) then Critical
  else if Rgt_dec safeTemp (alarmThresholdOr35 alarm_ths * 0.7) then Warning
  else Normal.

(** The temperature status of the first version of the page. *)
Definition temperatureStatusFixed (safeTemp : R) : Status :=
  if Rgt_dec safeTemp 35 then Critical
  else if Rgt_dec safeTemp 30 then Warning
  else Normal.

(** ** Dates *)

Section Dates.

(** [new Date(dateString)] and the getters of a date are left open;
    [getTime] is [None] for an invalid date ([NaN]). *)
Variable Date : Type.
Variable Date_new : string -> Date.
Variable getTime : Date -> option R.
Variable getUTCDate : Date -> nat.
Variable getUTCMonth : Date -> nat.
Variable getUTCHours : Date -> nat.
Variable getUTCMinutes : Date -> nat.

Definition formatRawTime (dateString : string) : string :=
  if String.eqb dateString "" then "N/A"%string
  else
    let date := Date_new dateString in
    match getTime date with
    | None => "Invalid date"%string
    | Some _ =>
        let day := padStart0 (natToString (getUTCDate date)) 2 in
        let month := padStart0 (natToString (getUTCMonth date + 1)) 2 in
        let hours := padStart0 (natToString (getUTCHours date)) 2 in
        let minutes := padStart0 (natToString (getUTCMinutes date)) 2 in
        (day ++ "/" ++ month ++ " " ++ hours ++ ":" ++ minutes)%string
    end.

End Dates.

(** ** Definitions the properties are stated with *)

(** The rank of a status in the order Normal < Warning < Critical. *)
Definition severityRank (s : Status) : nat :=
  match s with
  | Normal => 0
  | Warning => 1
  | Critical => 2
  end.

(** The classifier as the specification words it, with both thresholds as
    arguments: [value > critThreshold] is Critical, else
    [value > warnThreshold] is Warning, else Normal. *)
Definition classify_spec (value warnThreshold critThreshold : R) : Status :=
  if Rgt_dec value critThreshold then Critical
  else if Rgt_dec value warnThreshold then Warning
  else Normal.

(** A decimal figure. *)
Definition isDigit (c : ascii) : bool :=
  (48 <=? nat_of_ascii c)%nat && (nat_of_ascii c <=? 57)%nat.

(** The decimal figure of a number below 10 and the two figures (tens,
    units) of a number below 100. *)
Definition digitChar (d : nat) : ascii := ascii_of_nat (48 + d).

Definition twoFigures (n : nat) : string :=
  String (digitChar (n / 10)) (String (digitChar (n mod 10)) EmptyString).

(** A string of exactly two decimal figures. *)
Definition twoDigits (s : string) : bool :=
  match s with
  | String a (String b EmptyString) => isDigit a && isDigit b
  | _ => false
  end.

(** The sum of the squared samples, as the specification words the mean of
    squares (a sum over the samples). *)
Definition sumOfSquares (samples : list R) : R :=
  fold_right Rplus 0 (map (fun x => x * x) samples).

(** The order the comparator [(a, b) => freqMagnitude[b] - freqMagnitude[a]]
    and stability give to the bin indices: larger magnitude first, and among
    equal magnitudes the lower index first. *)
Definition ranksBefore (freqMagnitude : list R) (i j : nat) : Prop :=
  nth i freqMagnitude 0 > nth j freqMagnitude 0 \/
  (nth i freqMagnitude 0 = nth j freqMagnitude 0 /\ (i < j)%nat).

(** ** Proof tooling *)

(** Evaluates a sort of concrete numbers, one comparison at a time. *)
Ltac decide_comparisons :=
  repeat (unfold byMagnitude; cbn [insertSorted nth firstn];
          match goal with
          | |- context [Rlt_dec ?a ?b] => destruct (Rlt_dec a b); try lra
          end).

(** * Part II: properties *)

(** ** Calibration converter *)

Lemma sensitivityOf_cases (range : R) :
  (range = 2 /\ sensitivityOf range = 17367) \/
  (range = 4 /\ sensitivityOf range = 8684) \/
  (range = 8 /\ sensitivityOf range = 4342) \/
  (range = 16 /\ sensitivityOf range = 2171) \/
  (range <> 2 /\ range <> 4 /\ range <> 8 /\ range <> 16 /\
   sensitivityOf range = 17367).
Proof.
  unfold sensitivityOf.
  destruct (Req_dec_T range 2); [now left|].
  destruct (Req_dec_T range 4); [now right; left|].
  destruct (Req_dec_T range 8); [now right; right; left|].
  destruct (Req_dec_T range 16); [now right; right; right; left|].
  now right; right; right; right.
Qed.

Lemma sensitivityOf_pos (range : R) : 0 < sensitivityOf range.
Proof.
  destruct (sensitivityOf_cases range)
    as [[_ ->]|[[_ ->]|[[_ ->]|[[_ ->]|(_ & _ & _ & _ & ->)]]]]; lra.
Qed.

(** C6. For every integer adc value and every range, [adcToAccelerationG]
    returns (adc - 512) / sensitivity(range), with the sensitivity table
    2 -> 17367, 4 -> 8684, 8 -> 4342, 16 -> 2171 and 17367 for every other
    range; hence it is linear in adc with a positive slope, strictly
    monotonic in adc, and 0 at adc = 512 for every range. *)
Theorem adcToAccelerationG_spec :
  forall (adc : Z) (range : R),
    let s := sensitivityOf range in
    adcToAccelerationG (IZR adc) range = (IZR adc - 512) / s /\
    sensitivityOf 2 = 17367 /\ sensitivityOf 4 = 8684 /\
    sensitivityOf 8 = 4342 /\ sensitivityOf 16 = 2171 /\
    ((range = 2 \/ range = 4 \/ range = 8 \/ range = 16) \/ s = sensitivityOf 2) /\
    adcToAccelerationG (IZR adc) range = / s * IZR adc + - (512 / s) /\
    0 < / s /\
    (forall adc' : Z, (adc < adc')%Z ->
       adcToAccelerationG (IZR adc) range < adcToAccelerationG (IZR adc') range) /\
    adcToAccelerationG (IZR 512) range = 0.
Proof.
  intros adc range s.
  assert (Hs : 0 < s) by apply sensitivityOf_pos.
  assert (H2 : sensitivityOf 2 = 17367).
  { unfold sensitivityOf. destruct (Req_dec_T 2 2); [reflexivity|lra]. }
  assert (H4 : sensitivityOf 4 = 8684).
  { unfold sensitivityOf.
    destruct (Req_dec_T 4 2); [lra|]. destruct (Req_dec_T 4 4); [reflexivity|lra]. }
  assert (H8 : sensitivityOf 8 = 4342).
  { unfold sensitivityOf.
    destruct (Req_dec_T 8 2); [lra|]. destruct (Req_dec_T 8 4); [lra|].
    destruct (Req_dec_T 8 8); [reflexivity|lra]. }
  assert (H16 : sensitivityOf 16 = 2171).
  { unfold sensitivityOf.
    destruct (Req_dec_T 16 2); [lra|]. destruct (Req_dec_T 16 4); [lra|].
    destruct (Req_dec_T 16 8); [lra|]. destruct (Req_dec_T 16 16); [reflexivity|lra]. }
  repeat split; try assumption.
  - destruct (sensitivityOf_cases range)
      as [[E _]|[[E _]|[[E _]|[[E _]|(_ & _ & _ & _ & E)]]]]; auto 6.
    right. subst s. rewrite E, H2. reflexivity.
  - unfold adcToAccelerationG. fold s. field. lra.
  - now apply Rinv_0_lt_compat.
  - intros adc' Hlt. unfold adcToAccelerationG. fold s.
    apply IZR_lt in Hlt. unfold Rdiv.
    apply Rmult_lt_compat_r; [now apply Rinv_0_lt_compat | lra].
  - unfold adcToAccelerationG. fold s. unfold Rdiv.
    replace (512 - 512) with 0 by ring. ring.
Qed.

(** ** Integrator *)

Lemma velocitiesAfter_S (a : list R) (dt : R) (k : nat) :
  velocitiesAfter a dt (S k) = velocityStep a dt (velocitiesAfter a dt k) k.
Proof.
  unfold velocitiesAfter. rewrite seq_S, fold_left_app. reflexivity.
Qed.

Lemma velocitiesAfter_length (a : list R) (dt : R) (k : nat) :
  length (velocitiesAfter a dt k) = S k.
Proof.
  induction k as [|k IH]; [reflexivity|].
  rewrite velocitiesAfter_S. unfold velocityStep.
  rewrite length_app, IH. simpl. lia.
Qed.

(** Earlier elements are not touched by later iterations. *)
Lemma velocitiesAfter_prefix (a : list R) (dt : R) (k j i : nat) :
  (i <= k)%nat ->
  nth i (velocitiesAfter a dt (k + j)) 0 = nth i (velocitiesAfter a dt k) 0.
Proof.
  intros Hi. induction j as [|j IH].
  - now rewrite Nat.add_0_r.
  - rewrite Nat.add_succ_r, velocitiesAfter_S. unfold velocityStep.
    rewrite app_nth1; [exact IH|].
    rewrite velocitiesAfter_length. lia.
Qed.

Lemma velocitiesAfter_last (a : list R) (dt : R) (k : nat) :
  nth (S k) (velocitiesAfter a dt (S k)) 0 =
  nth k (velocitiesAfter a dt k) 0 +
  0.5 * dt * (nth k a 0 + nth (k + 1) a 0).
Proof.
  rewrite velocitiesAfter_S. unfold velocityStep.
  rewrite app_nth2; rewrite velocitiesAfter_length; [|lia].
  replace (S k - S k)%nat with 0%nat by lia.
  replace (S k - 1)%nat with k by lia. reflexivity.
Qed.

(** C5. For an acceleration series of length n >= 2, [accelerationToVelocity]
    returns a series of the same length n whose element 0 is 0 and whose
    element i+1 is element i plus 0.5 * dt * (a[i] + a[i+1]); for a series of
    length < 2 (the empty one included) it returns exactly [[0]]. *)
Theorem accelerationToVelocity_spec :
  forall (a : list R) (dt : R),
    let v := accelerationToVelocity a dt in
    ((2 <= length a)%nat ->
       length v = length a /\
       nth 0 v 0 = 0 /\
       forall i, (i + 1 < length a)%nat ->
         nth (i + 1) v 0 = nth i v 0 + 0.5 * dt * (nth i a 0 + nth (i + 1) a 0)) /\
    ((length a < 2)%nat -> v = [0]).
Proof.
  intros a dt v. subst v.
  change (accelerationToVelocity a dt)
    with (velocitiesAfter a dt (length a - 1)).
  split.
  - intros Hn. repeat split.
    + rewrite velocitiesAfter_length. lia.
    + replace (length a - 1)%nat with (0 + (length a - 1))%nat by lia.
      now rewrite velocitiesAfter_prefix by lia.
    + intros i Hi.
      replace (length a - 1)%nat with (S i + (length a - 1 - S i))%nat at 1 by lia.
      rewrite Nat.add_1_r at 1. rewrite velocitiesAfter_prefix by lia.
      replace (length a - 1)%nat with (i + (length a - 1 - i))%nat by lia.
      rewrite velocitiesAfter_prefix by lia.
      apply velocitiesAfter_last.
  - intros Hn.
    replace (length a - 1)%nat with 0%nat by lia. reflexivity.
Qed.


(** ** Spectral transformer *)

Lemma nextPow2Of_pos (n : nat) :
  (1 <= n)%nat -> nextPow2Of n = (2 ^ Nat.log2_up n)%nat.
Proof. destruct n; [lia | reflexivity]. Qed.

(** For a non-empty series the padded length is the smallest power of two
    that is not below the length. *)
Lemma nextPow2Of_smallest (n : nat) :
  (1 <= n)%nat ->
  (exists k, nextPow2Of n = 2 ^ k)%nat /\
  (n <= nextPow2Of n)%nat /\
  (forall k, n <= 2 ^ k -> nextPow2Of n <= 2 ^ k)%nat.
Proof.
  intros Hn. rewrite nextPow2Of_pos by assumption. repeat split.
  - now exists (Nat.log2_up n).
  - apply Nat.log2_up_le_pow2; lia.
  - intros k Hk. apply Nat.pow_le_mono_r; [lia|].
    apply Nat.log2_up_le_pow2; lia.
Qed.

Lemma FFT_new_pow2 (k : nat) :
  (1 <= k)%nat -> FFT_new (2 ^ k) = Returns {| size := 2 ^ k |}.
Proof.
  intros Hk. unfold FFT_new.
  assert (H2 : (2 <= 2 ^ k)%nat).
  { change 2%nat with (2 ^ 1)%nat at 1. apply Nat.pow_le_mono_r; lia. }
  replace (2 ^ k <=? 1)%nat with false by (symmetry; apply Nat.leb_gt; lia).
  replace (2 ^ k - 1)%nat with (Nat.ones k)
    by (rewrite Nat.ones_equiv; lia).
  rewrite Nat.land_ones, Nat.Div0.mod_same. reflexivity.
Qed.

Lemma FFT_new_nextPow2Of (n : nat) :
  (2 <= n)%nat ->
  FFT_new (nextPow2Of n) = Returns {| size := nextPow2Of n |}.
Proof.
  intros Hn. rewrite nextPow2Of_pos by lia. apply FFT_new_pow2.
  apply Nat.log2_up_pos. lia.
Qed.

Lemma paddedInput_shape (timeData : list R) (p : nat) :
  (length timeData <= p)%nat ->
  length (paddedInput timeData p) = p /\
  firstn (length timeData) (paddedInput timeData p) = timeData /\
  skipn (length timeData) (paddedInput timeData p) =
    repeat 0 (p - length timeData).
Proof.
  intros Hle. unfold paddedInput. repeat split.
  - rewrite length_app, repeat_length. lia.
  - rewrite firstn_app, Nat.sub_diag, firstn_all. simpl. apply app_nil_r.
  - rewrite skipn_app, Nat.sub_diag, skipn_all. reflexivity.
Qed.

Lemma outputBuffer_nth rt (fft : FFT) (input : list R) (p k : nat) :
  (k < p * 2)%nat -> nth k (outputBuffer rt fft input p) 0 = rt fft input k.
Proof.
  intros Hk. unfold outputBuffer.
  rewrite (nth_indep _ 0 (rt fft input 0%nat)) by (rewrite length_map, length_seq; lia).
  rewrite map_nth, seq_nth by lia. reflexivity.
Qed.

Lemma nth_map_seq (f : nat -> R) (n i : nat) :
  (i < n)%nat -> nth i (map f (seq 0 n)) 0 = f i.
Proof.
  intros Hi.
  rewrite (nth_indep _ 0 (f 0%nat)) by (rewrite length_map, length_seq; lia).
  rewrite map_nth, seq_nth by lia. reflexivity.
Qed.

(** What [calculateFFT] returns once the constructor has accepted the padded
    length. *)
Lemma calculateFFT_returns rt (timeData : list R) :
  (2 <= length timeData)%nat ->
  let n := length timeData in
  let p := nextPow2Of n in
  calculateFFT rt timeData =
  Returns
    {| magnitude :=
         map (binMagnitude
                (outputBuffer rt {| size := p |} (paddedInput timeData p) p) n)
             (seq 0 n);
       frequency := map (binFrequency n) (seq 0 n) |}.
Proof.
  intros Hn n p. unfold calculateFFT. fold n. fold p.
  unfold p at 1. rewrite FFT_new_nextPow2Of by assumption. reflexivity.
Qed.

(** What [calculateFFT] returns for a series of n >= 2 samples, read off the
    buffer: the series is padded with zeros to the smallest power of two
    p >= n, the result has n magnitudes and n frequencies, magnitude i is
    (2.56 / n) times the modulus of slots 2i and 2i+1 of the buffer as the
    transform left them (whether or not the transform computed that bin),
    and frequency i is i * SAMPLING_RATE / n. *)
Lemma calculateFFT_buffer_readout :
  forall (rt : FFT -> list R -> nat -> R) (timeData : list R),
    (2 <= length timeData)%nat ->
    let n := length timeData in
    let p := nextPow2Of n in
    let input := paddedInput timeData p in
    let fft := {| size := p |} in
    ((exists k, p = 2 ^ k) /\ n <= p /\ forall k, n <= 2 ^ k -> p <= 2 ^ k)%nat /\
    (length input = p /\ firstn n input = timeData /\
     skipn n input = repeat 0 (p - n)) /\
    exists spectrum,
      calculateFFT rt timeData = Returns spectrum /\
      length (magnitude spectrum) = n /\
      length (frequency spectrum) = n /\
      forall i, (i < n)%nat ->
        nth i (magnitude spectrum) 0 =
          (2.56 / INR n) *
          sqrt (rt fft input (i * 2)%nat * rt fft input (i * 2)%nat +
                rt fft input (i * 2 + 1)%nat * rt fft input (i * 2 + 1)%nat) /\
        nth i (frequency spectrum) 0 = INR i * SAMPLING_RATE / INR n.
Proof.
  intros rt timeData Hn n p input fft.
  destruct (nextPow2Of_smallest n) as (Hpow & Hle & Hmin); [lia|].
  fold p in Hpow, Hle, Hmin.
  split; [now repeat split|].
  split; [now apply paddedInput_shape|].
  eexists. split; [apply calculateFFT_returns; assumption|].
  cbn [magnitude frequency]. rewrite !length_map, !length_seq.
  repeat split.
  - rewrite nth_map_seq by assumption. unfold binMagnitude.
    fold n. fold p. fold input. fold fft.
    rewrite !outputBuffer_nth by lia. reflexivity.
  - rewrite nth_map_seq by assumption. reflexivity.
Qed.

(** C2. Evaluating [calculateFFT] on the empty series and on a series of one
    sample: there is no branch on the length, the padded lengths are 0 and 1,
    the constructor of fft.js is called with them and throws, so neither
    call returns a spectrum. *)
Theorem calculateFFT_degenerate_throws :
  forall (rt : FFT -> list R -> nat -> R),
    nextPow2Of (length (@nil R)) = 0%nat /\
    calculateFFT rt [] =
      Throws "FFT size must be a power of two and bigger than 1" /\
    forall x : R,
      nextPow2Of (length [x]) = 1%nat /\
      calculateFFT rt [x] =
        Throws "FFT size must be a power of two and bigger than 1".
Proof.
  intros rt. repeat split.
Qed.

(** The frequencies [calculateFFT] pushes start at 0 and increase strictly,
    and no magnitude is negative. *)
Lemma binFrequency_increasing (n i j : nat) :
  (1 <= n)%nat -> (i < j)%nat -> binFrequency n i < binFrequency n j.
Proof.
  intros Hn Hij. unfold binFrequency, SAMPLING_RATE, Rdiv.
  assert (0 < INR n) by (apply lt_0_INR; lia).
  assert (0 < / INR n) by now apply Rinv_0_lt_compat.
  apply lt_INR in Hij.
  apply Rmult_lt_compat_r; [assumption | lra].
Qed.

Lemma binFrequency_0 (n : nat) : binFrequency n 0 = 0.
Proof. unfold binFrequency, Rdiv. simpl. ring. Qed.

Lemma binMagnitude_nonneg (output : list R) (n i : nat) :
  0 <= binMagnitude output n i.
Proof.
  unfold binMagnitude. apply Rmult_le_pos; [|apply sqrt_pos].
  destruct n as [|n].
  - simpl. unfold Rdiv. rewrite Rinv_0. lra.
  - assert (0 < INR (S n)) by (apply lt_0_INR; lia).
    apply Rlt_le, Rdiv_lt_0_compat; lra.
Qed.

(** C8. Evaluating [calculateFFT] on four samples: the loop runs to
    [halfLength = n = 4], the frequencies pushed are 0, 12.5, 25 and 37.5, and
    the last one lies above half the sampling rate. *)
Theorem calculateFFT_frequency_above_nyquist :
  forall (rt : FFT -> list R -> nat -> R),
  exists spectrum,
    calculateFFT rt [0; 1; 0; -1] = Returns spectrum /\
    frequency spectrum = [0 * 50.0 / 4; 1 * 50.0 / 4; 2 * 50.0 / 4; 3 * 50.0 / 4] /\
    nth 3 (frequency spectrum) 0 = 37.5 /\
    SAMPLING_RATE / 2 < nth 3 (frequency spectrum) 0.
Proof.
  intros rt. eexists. split; [reflexivity|].
  cbn [frequency length]. cbn [map seq nth].
  unfold binFrequency, SAMPLING_RATE. cbn [INR]. repeat split.
  - repeat (apply f_equal2; [lra|]). reflexivity.
  - lra.
  - lra.
Qed.

(** For a series of at least two samples the frequencies of the spectrum
    start at 0 and increase strictly, and no magnitude is negative. *)
Theorem calculateFFT_spectrum_order :
  forall (rt : FFT -> list R -> nat -> R) (timeData : list R),
    (2 <= length timeData)%nat ->
    exists spectrum,
      calculateFFT rt timeData = Returns spectrum /\
      nth 0 (frequency spectrum) 0 = 0 /\
      (forall i j, (i < j < length timeData)%nat ->
         nth i (frequency spectrum) 0 < nth j (frequency spectrum) 0) /\
      Forall (fun m => 0 <= m) (magnitude spectrum).
Proof.
  intros rt timeData Hn.
  eexists. split; [apply calculateFFT_returns; assumption|].
  cbn [magnitude frequency]. repeat split.
  - rewrite nth_map_seq by lia. apply binFrequency_0.
  - intros i j Hij. rewrite !nth_map_seq by lia.
    apply binFrequency_increasing; lia.
  - apply Forall_map, Forall_forall. intros i _. apply binMagnitude_nonneg.
Qed.

(** A run on a buffer left as it was allocated: the statement does not depend
    on what the transform writes. *)
Lemma calculateFFT_spectrum_order_witness :
  exists spectrum,
    calculateFFT (fun _ _ _ => 0) [0; 1; 0; -1] = Returns spectrum /\
    nth 0 (frequency spectrum) 0 = 0 /\
    Forall (fun m => 0 <= m) (magnitude spectrum).
Proof.
  assert (H : (2 <= length [0; 1; 0; -1]%R)%nat) by (simpl; lia).
  destruct (calculateFFT_spectrum_order (fun _ _ _ => 0) [0; 1; 0; -1] H)
    as (spectrum & Hret & H0 & _ & Hm).
  exists spectrum. repeat split; assumption.
Defined.

(** For a series of at least three samples the last frequency of the
    spectrum lies above half the sampling rate. *)
Theorem calculateFFT_last_frequency :
  forall (rt : FFT -> list R -> nat -> R) (timeData : list R),
    (3 <= length timeData)%nat ->
    exists spectrum,
      calculateFFT rt timeData = Returns spectrum /\
      SAMPLING_RATE / 2 < nth (length timeData - 1) (frequency spectrum) 0.
Proof.
  intros rt timeData Hn.
  eexists. split; [apply calculateFFT_returns; lia|].
  cbn [frequency]. rewrite nth_map_seq by lia.
  unfold binFrequency, SAMPLING_RATE.
  assert (Hpos : 0 < INR (length timeData)) by (apply lt_0_INR; lia).
  rewrite minus_INR by lia. apply le_INR in Hn.
  change (INR 3) with (2 + 1) in Hn. change (INR 1) with 1.
  apply Rmult_lt_reg_r with (INR (length timeData)); [assumption|].
  replace ((INR (length timeData) - 1) * 50.0 / INR (length timeData)
           * INR (length timeData))
    with ((INR (length timeData) - 1) * 50.0) by (field; lra).
  lra.
Qed.

(** A run on a buffer left as it was allocated: the statement does not depend
    on what the transform writes. *)
Lemma calculateFFT_last_frequency_witness :
  exists spectrum,
    calculateFFT (fun _ _ _ => 0) [1; 2; 3] = Returns spectrum /\
    SAMPLING_RATE / 2 < nth 2 (frequency spectrum) 0.
Proof.
  assert (H : (3 <= length [1; 2; 3]%R)%nat) by (simpl; lia).
  exact (calculateFFT_last_frequency (fun _ _ _ => 0) [1; 2; 3] H).
Defined.

(** ** Statistics *)

Lemma fold_left_sumOfSquares (samples : list R) (init : R) :
  fold_left (fun sum val => sum + val * val) samples init =
  init + sumOfSquares samples.
Proof.
  revert init. induction samples as [|x samples IH]; intros init.
  - unfold sumOfSquares. simpl. ring.
  - simpl. rewrite IH. unfold sumOfSquares. simpl. ring.
Qed.

(** C3. For every non-empty processed series the overall statistics are:
    rms = sqrt of the mean of the squared samples, peak = rms / 0.707 (not the
    largest absolute sample), and peak-to-peak = 2 * peak. *)
Theorem overallStatistics_spec :
  forall (processedData : list R),
    processedData <> [] ->
    let statistics := overallStatistics processedData in
    rms statistics =
      sqrt (sumOfSquares processedData / INR (length processedData)) /\
    peak statistics = rms statistics / 0.707 /\
    peakToPeak statistics = 2 * peak statistics.
Proof.
  intros pd Hne statistics. subst statistics. unfold overallStatistics.
  cbn [rms peak peakToPeak].
  destruct pd as [|x pd]; [contradiction|].
  replace (0 <? length (x :: pd))%nat with true by reflexivity.
  rewrite fold_left_sumOfSquares, Rplus_0_l.
  repeat split. ring.
Qed.

(** A run of the theorem on the samples 3 and 4, whose largest absolute
    sample is 4 while the peak is sqrt (25/2) / 0.707. *)
Lemma overallStatistics_spec_witness :
  rms (overallStatistics [3; 4]) = sqrt ((3 * 3 + (4 * 4 + 0)) / INR 2) /\
  peak (overallStatistics [3; 4]) = rms (overallStatistics [3; 4]) / 0.707 /\
  peakToPeak (overallStatistics [3; 4]) = 2 * peak (overallStatistics [3; 4]).
Proof.
  apply (overallStatistics_spec [3; 4]). discriminate.
Defined.

(** The values [prepareChartData] reports are the overall statistics of the
    processed series, rendered with three decimals. *)
Lemma prepareChartData_reports_statistics
  rt toFixed numberToString rawAxisData selectedUnit timeInterval result :
  rawAxisData <> [] ->
  prepareChartData rt toFixed numberToString rawAxisData selectedUnit timeInterval
    = Returns result ->
  let statistics :=
    overallStatistics (fst (processData rawAxisData selectedUnit timeInterval)) in
  rmsValue result = toFixed (rms statistics) 3%nat /\
  peakValue result = toFixed (peak statistics) 3%nat /\
  peakToPeakValue result = toFixed (peakToPeak statistics) 3%nat.
Proof.
  intros Hne Hret statistics. subst statistics.
  unfold prepareChartData in Hret.
  destruct rawAxisData as [|x raw]; [contradiction|].
  cbn [length Nat.eqb] in Hret.
  destruct (processData (x :: raw) selectedUnit timeInterval) as [pd lbl].
  cbn [fst].
  destruct (calculateFFT rt pd) as [spectrum|msg]; cbn [bindC] in Hret;
    [|discriminate].
  destruct (frequencyDomain toFixed numberToString lbl spectrum) as [fd tp].
  injection Hret as <-. cbn. repeat split.
Qed.

(** ** Top peaks *)

Section StableSort.

Variable freqMagnitude : list R.

Lemma insertSorted_perm (x : nat) (l : list nat) :
  Permutation (insertSorted (byMagnitude freqMagnitude) x l) (x :: l).
Proof.
  induction l as [|y l IH]; simpl; [reflexivity|].
  destruct (Rlt_dec 0 (byMagnitude freqMagnitude x y)); [|reflexivity].
  rewrite IH. apply perm_swap.
Qed.

Lemma Array_sort_perm (l : list nat) : Permutation (Array_sort (byMagnitude freqMagnitude) l) l.
Proof.
  induction l as [|x l IH]; simpl; [reflexivity|].
  rewrite insertSorted_perm. now constructor.
Qed.

Lemma insertSorted_sorted (x : nat) (l : list nat) :
  StronglySorted (ranksBefore freqMagnitude) l ->
  Forall (lt x) l ->
  StronglySorted (ranksBefore freqMagnitude) (insertSorted (byMagnitude freqMagnitude) x l).
Proof.
  induction l as [|y l IH]; intros Hs Hlt; simpl.
  - repeat constructor.
  - inversion Hs as [|? ? Hs' Hy]; subst.
    inversion Hlt as [|? ? Hxy Hlt']; subst.
    destruct (Rlt_dec 0 (byMagnitude freqMagnitude x y)) as [Hc|Hc]; unfold byMagnitude in Hc.
    + constructor; [now apply IH|].
      rewrite insertSorted_perm. constructor; [|assumption].
      left. lra.
    + constructor; [assumption|].
      assert (Hx : ranksBefore freqMagnitude x y).
      { destruct (Req_dec (nth x freqMagnitude 0) (nth y freqMagnitude 0)).
        - right. now split.
        - left. lra. }
      constructor; [assumption|].
      rewrite Forall_forall in Hy, Hlt' |- *. intros z Hz.
      specialize (Hy z Hz). specialize (Hlt' z Hz).
      destruct Hy as [Hy|[Hy _]].
      * left. lra.
      * destruct (Req_dec (nth x freqMagnitude 0) (nth z freqMagnitude 0)).
        -- right. now split.
        -- left. lra.
Qed.

Lemma Array_sort_sorted (l : list nat) :
  StronglySorted lt l ->
  StronglySorted (ranksBefore freqMagnitude) (Array_sort (byMagnitude freqMagnitude) l).
Proof.
  induction l as [|x l IH]; intros Hs; simpl; [constructor|].
  inversion Hs as [|? ? Hs' Hx]; subst.
  apply insertSorted_sorted; [now apply IH|].
  now rewrite Array_sort_perm.
Qed.

End StableSort.

Lemma seq_StronglySorted (start len : nat) : StronglySorted lt (seq start len).
Proof.
  revert start. induction len as [|len IH]; intros start; simpl; constructor.
  - apply IH.
  - apply Forall_forall. intros y Hy. apply in_seq in Hy. lia.
Qed.

Lemma in_firstn_in {A : Type} (k : nat) (l : list A) (x : A) :
  In x (firstn k l) -> In x l.
Proof.
  intros Hin. rewrite <- (firstn_skipn k l). apply in_or_app. now left.
Qed.

Lemma StronglySorted_firstn {A : Type} (ord : A -> A -> Prop) (k : nat) (l : list A) :
  StronglySorted ord l -> StronglySorted ord (firstn k l).
Proof.
  revert k. induction l as [|x l IH]; intros k Hs.
  - rewrite firstn_nil. constructor.
  - destruct k as [|k]; simpl; [constructor|].
    inversion Hs as [|? ? Hs' Hx]; subst. constructor; [now apply IH|].
    rewrite Forall_forall in Hx |- *. intros y Hy.
    apply Hx. eapply in_firstn_in; eassumption.
Qed.

Lemma StronglySorted_app_ord {A : Type} (ord : A -> A -> Prop) (l1 l2 : list A) :
  StronglySorted ord (l1 ++ l2) ->
  forall x y, In x l1 -> In y l2 -> ord x y.
Proof.
  induction l1 as [|a l1 IH]; intros Hs x y Hx Hy; [contradiction|].
  simpl in Hs. inversion Hs as [|? ? Hs' Ha]; subst.
  destruct Hx as [<-|Hx].
  - rewrite Forall_forall in Ha. apply Ha, in_or_app. now right.
  - now apply IH.
Qed.

(** What [topIndicesOf] gives: at most five distinct indices of the array,
    in rank order, and ranking before every index left out. *)
Lemma topIndicesOf_spec (freqMagnitude : list R) :
  let idxs := topIndicesOf freqMagnitude in
  length idxs = Nat.min 5 (length freqMagnitude) /\
  NoDup idxs /\
  Forall (fun idx => (idx < length freqMagnitude)%nat) idxs /\
  StronglySorted (ranksBefore freqMagnitude) idxs /\
  forall j, (j < length freqMagnitude)%nat -> ~ In j idxs ->
    forall i, In i idxs -> ranksBefore freqMagnitude i j.
Proof.
  intros idxs. subst idxs. unfold topIndicesOf.
  set (comparefn := byMagnitude freqMagnitude).
  set (keys := seq 0 (length freqMagnitude)).
  set (sorted := Array_sort comparefn keys).
  assert (Hperm : Permutation sorted keys) by apply Array_sort_perm.
  assert (Hsorted : StronglySorted (ranksBefore freqMagnitude) sorted)
    by (apply Array_sort_sorted, seq_StronglySorted).
  assert (Hnodup : NoDup sorted).
  { eapply Permutation_NoDup; [symmetry; exact Hperm | apply seq_NoDup]. }
  repeat split.
  - rewrite length_firstn, (Permutation_length Hperm). unfold keys.
    now rewrite length_seq.
  - rewrite <- (firstn_skipn 5 sorted) in Hnodup.
    eapply NoDup_app_remove_r; exact Hnodup.
  - apply Forall_forall. intros idx Hin.
    apply in_firstn_in in Hin.
    apply (Permutation_in _ Hperm), in_seq in Hin. lia.
  - now apply StronglySorted_firstn.
  - intros j Hj Hnotin i Hi.
    assert (Hin : In j sorted).
    { apply (Permutation_in _ (Permutation_sym Hperm)), in_seq. lia. }
    rewrite <- (firstn_skipn 5 sorted) in Hin, Hsorted.
    apply in_app_or in Hin. destruct Hin as [Hin|Hin]; [contradiction|].
    eapply StronglySorted_app_ord; eassumption.
Qed.

Lemma nth_skipn_1 (l : list R) (i : nat) : nth i (skipn 1 l) 0 = nth (S i) l 0.
Proof. destruct l as [|x l]; [now destruct i | reflexivity]. Qed.

Lemma StronglySorted_impl {A : Type} (P Q : A -> A -> Prop) (l : list A) :
  (forall x y, P x y -> Q x y) -> StronglySorted P l -> StronglySorted Q l.
Proof.
  intros HPQ. induction 1 as [|x l Hs IH Hx]; constructor; [assumption|].
  eapply Forall_impl; [|exact Hx]. intros y. apply HPQ.
Qed.

Lemma StronglySorted_map {A B : Type} (f : A -> B) (Q : B -> B -> Prop) (l : list A) :
  StronglySorted (fun x y => Q (f x) (f y)) l -> StronglySorted Q (map f l).
Proof.
  induction 1 as [|x l Hs IH Hx]; simpl; constructor; [assumption|].
  apply Forall_map. exact Hx.
Qed.

Lemma topIndicesOf_nil : topIndicesOf [] = [].
Proof. reflexivity. Qed.

(** C4. For every spectrum (a sequence of (frequency, magnitude) bins) the
    table of top peaks is made from bins 1, 2, ... only (bin 0, the DC bin, is
    left out), has exactly min(5, number of bins - 1) rows, lists the bins by
    non-increasing magnitude with equal magnitudes in their original bin
    order, ranks every listed bin before every bin left out, and each row
    reports the magnitude of its bin, its frequency rendered as a string, and
    as rms the magnitude * 0.707 rendered with two decimals. *)
Theorem topPeaks_spec :
  forall (toFixed : R -> nat -> string) (numberToString : R -> string)
         (yAxisLabel : string) (bins : list (R * R)),
    let spectrum := {| magnitude := map snd bins; frequency := map fst bins |} in
    let peaks := snd (frequencyDomain toFixed numberToString yAxisLabel spectrum) in
    let mag := fun bin => nth bin (magnitude spectrum) 0 in
    let before := fun i j =>
      mag (S i) > mag (S j) \/ (mag (S i) = mag (S j) /\ (i < j)%nat) in
    let idxs := topIndicesOf (skipn 1 (magnitude spectrum)) in
    peaks =
      map (fun idx =>
             {| TopPeak.peak := mag (S idx);
                TopPeak.rms := toFixed (mag (S idx) * 0.707) 2%nat;
                TopPeak.frequency :=
                  numberToString (nth (S idx) (frequency spectrum) 0) |})
          idxs /\
    length peaks = Nat.min 5 (length bins - 1) /\
    NoDup idxs /\
    Forall (fun idx => (S idx < length bins)%nat) idxs /\
    StronglySorted before idxs /\
    StronglySorted Rge (map TopPeak.peak peaks) /\
    (forall j, (S j < length bins)%nat -> ~ In j idxs ->
       forall i, In i idxs -> before i j).
Proof.
  intros toFixed numberToString yAxisLabel bins spectrum peaks mag before idxs.
  assert (Hlen : length (skipn 1 (magnitude spectrum)) = (length bins - 1)%nat).
  { subst spectrum. cbn [magnitude]. now rewrite length_skipn, length_map. }
  destruct (topIndicesOf_spec (skipn 1 (magnitude spectrum)))
    as (Hl & Hnd & Hin & Hs & Htop).
  fold idxs in Hl, Hnd, Hin, Hs, Htop. rewrite Hlen in Hl, Hin, Htop.
  assert (Hbefore : forall i j,
             ranksBefore (skipn 1 (magnitude spectrum)) i j -> before i j).
  { intros i j. unfold ranksBefore, before, mag. now rewrite !nth_skipn_1. }
  assert (Hpeaks : peaks =
      map (fun idx =>
             {| TopPeak.peak := mag (S idx);
                TopPeak.rms := toFixed (mag (S idx) * 0.707) 2%nat;
                TopPeak.frequency :=
                  numberToString (nth (S idx) (frequency spectrum) 0) |})
          idxs).
  { subst peaks idxs mag spectrum. unfold frequencyDomain.
    cbn [magnitude frequency].
    destruct bins as [|b bins]; [reflexivity|].
    cbn [map length Nat.eqb orb skipn].
    destruct bins as [|b' bins]; [reflexivity|].
    cbn [map length Nat.ltb Nat.leb snd].
    apply map_ext. intros idx. reflexivity. }
  assert (Hsb : StronglySorted before idxs)
    by (eapply StronglySorted_impl; [exact Hbefore | exact Hs]).
  split; [exact Hpeaks|].
  split; [now rewrite Hpeaks, length_map|].
  split; [exact Hnd|].
  split; [eapply Forall_impl; [|exact Hin]; cbn beta; intros; lia|].
  split; [exact Hsb|].
  split.
  - rewrite Hpeaks, map_map. cbn [TopPeak.peak].
    apply StronglySorted_map.
    eapply StronglySorted_impl; [|exact Hsb].
    intros i j [H|[H _]]; [now apply Rgt_ge | right; exact H].
  - intros j Hj Hnot i Hi. apply Hbefore, Htop; [lia|assumption|assumption].
Qed.

(** C9. For an empty axis series [prepareChartData] returns (it does not
    throw), the rms, peak and peak-to-peak it reports are all "0.000", at the
    top level of the result and in its time chart, and the table of top
    peaks is empty. *)
Theorem prepareChartData_empty :
  forall (rt : FFT -> list R -> nat -> R) (toFixed : R -> nat -> string)
         (numberToString : R -> string) (selectedUnit : string) (timeInterval : R),
  exists result,
    prepareChartData rt toFixed numberToString [] selectedUnit timeInterval
      = Returns result /\
    rmsValue result = "0.000"%string /\
    peakValue result = "0.000"%string /\
    peakToPeakValue result = "0.000"%string /\
    TimeData.rmsValue (timeData result) = "0.000"%string /\
    TimeData.peakValue (timeData result) = "0.000"%string /\
    TimeData.peakToPeakValue (timeData result) = "0.000"%string /\
    topPeaks result = [].
Proof.
  intros. exists emptyChartData. repeat split.
Qed.

(** ** Status *)

Lemma vibrationStatus_cases (v : R) :
  (v > 0.8 /\ vibrationStatus v = Critical) \/
  (v <= 0.8 /\ v > 0.5 /\ vibrationStatus v = Warning) \/
  (v <= 0.5 /\ vibrationStatus v = Normal).
Proof.
  unfold vibrationStatus.
  destruct (Rgt_dec v 0.8); [left; now split|].
  destruct (Rgt_dec v 0.5); [right; left; repeat split; lra|].
  right; right. split; [lra | reflexivity].
Qed.

(** C7 (as stated) fails: the status expression of the page has no threshold
    arguments, so with the thresholds 5.0 and 8.0 of the scenario the values
    6.0 and 1.0 are not classified as the specification words it. *)
Lemma vibrationStatus_not_classify_spec :
  vibrationStatus 6.0 = Critical /\ classify_spec 6.0 5.0 8.0 = Warning /\
  vibrationStatus 1.0 = Critical /\ classify_spec 1.0 5.0 8.0 = Normal.
Proof.
  unfold vibrationStatus, classify_spec.
  repeat split;
    repeat match goal with
           | |- context [Rgt_dec ?a ?b] => destruct (Rgt_dec a b); try lra
           end; reflexivity.
Qed.

(** C7 (amended). The status of the page is the classification with the fixed
    thresholds warn = 0.5 and crit = 0.8: Critical when the value is above
    0.8, else Warning when it is above 0.5, else Normal; a value equal to a
    threshold stays in the lower band; 0.6 is Warning, 0.9 is Critical and
    0.1 is Normal. *)
Theorem vibrationStatus_spec :
  forall value : R,
    vibrationStatus value = classify_spec value 0.5 0.8 /\
    (value > 0.8 -> vibrationStatus value = Critical) /\
    (value <= 0.8 -> value > 0.5 -> vibrationStatus value = Warning) /\
    (value <= 0.5 -> vibrationStatus value = Normal) /\
    vibrationStatus 0.8 = Warning /\ vibrationStatus 0.5 = Normal /\
    vibrationStatus 0.6 = Warning /\ vibrationStatus 0.9 = Critical /\
    vibrationStatus 0.1 = Normal.
Proof.
  intros value. split; [reflexivity|].
  repeat split;
    try (intros;
         destruct (vibrationStatus_cases value) as [[? ->]|[(? & ? & ->)|[? ->]]];
         (reflexivity || lra)).
  - destruct (vibrationStatus_cases 0.8) as [[? ->]|[(? & ? & ->)|[? ->]]];
      (reflexivity || lra).
  - destruct (vibrationStatus_cases 0.5) as [[? ->]|[(? & ? & ->)|[? ->]]];
      (reflexivity || lra).
  - destruct (vibrationStatus_cases 0.6) as [[? ->]|[(? & ? & ->)|[? ->]]];
      (reflexivity || lra).
  - destruct (vibrationStatus_cases 0.9) as [[? ->]|[(? & ? & ->)|[? ->]]];
      (reflexivity || lra).
  - destruct (vibrationStatus_cases 0.1) as [[? ->]|[(? & ? & ->)|[? ->]]];
      (reflexivity || lra).
Qed.

(** C10. The status is monotone in the classified value: for v1 <= v2 the
    status of v1 is at most the status of v2 in the order
    Normal < Warning < Critical. *)
Theorem vibrationStatus_monotone :
  forall v1 v2 : R,
    v1 <= v2 ->
    (severityRank (vibrationStatus v1) <= severityRank (vibrationStatus v2))%nat.
Proof.
  intros v1 v2 Hle.
  destruct (vibrationStatus_cases v1) as [[? ->]|[(? & ? & ->)|[? ->]]];
    destruct (vibrationStatus_cases v2) as [[? ->]|[(? & ? & ->)|[? ->]]];
    simpl; solve [lia | lra].
Qed.

(** A run of the theorem across the Warning threshold. *)
Lemma vibrationStatus_monotone_witness :
  (severityRank (vibrationStatus 0.4) <= severityRank (vibrationStatus 0.6))%nat.
Proof.
  apply (vibrationStatus_monotone 0.4 0.6). lra.
Defined.

(** ** Runs on concrete inputs *)

Example accelerationToVelocity_run :
  accelerationToVelocity [1; 2; 3] 2 = [0; 3; 8].
Proof.
  unfold accelerationToVelocity. cbn [length Nat.sub seq fold_left].
  unfold velocityStep. cbn [length Nat.sub Nat.add nth app].
  repeat (apply f_equal2; [lra|]). reflexivity.
Qed.

Example accelerationToVelocity_short :
  accelerationToVelocity [] 2 = [0] /\ accelerationToVelocity [7] 2 = [0].
Proof. split; reflexivity. Qed.

(** Seven bins after the DC bin: the two bins of magnitude 3 keep their
    order, and the two weakest bins are left out. *)
Example topIndicesOf_run :
  topIndicesOf [1; 3; 3; 2; 0; 5; 4] = [5; 6; 1; 2; 3]%nat.
Proof.
  unfold topIndicesOf, Array_sort.
  cbn [length seq fold_right].
  decide_comparisons. reflexivity.
Qed.

Example adcToAccelerationG_run :
  adcToAccelerationG 612 2 = 100 / 17367 /\ adcToAccelerationG 512 16 = 0.
Proof.
  unfold adcToAccelerationG, sensitivityOf.
  repeat match goal with
         | |- context [Req_dec_T ?a ?b] => destruct (Req_dec_T a b); try lra
         end.
Qed.

(** Axes at rest: the status is "Normal". *)
Example vibrationStatsOfValues_rest (toFixed : R -> nat -> string) :
  VibrationStats.status (vibrationStatsOfValues toFixed 0 0 0) = "Normal"%string.
Proof.
  unfold vibrationStatsOfValues. cbn [VibrationStats.status].
  replace ((0 * 0 + 0 * 0 + 0 * 0) / 3) with 0 by lra.
  rewrite sqrt_0. unfold vibrationStatus.
  destruct (Rgt_dec 0 0.8); [lra|]. destruct (Rgt_dec 0 0.5); [lra|].
  reflexivity.
Qed.

(** * Part III: further properties of the code *)

(** ** Integrator and unit processing *)

Lemma accelerationToVelocity_length (a : list R) (dt : R) :
  length (accelerationToVelocity a dt) = S (length a - 1).
Proof.
  change (accelerationToVelocity a dt) with (velocitiesAfter a dt (length a - 1)).
  apply velocitiesAfter_length.
Qed.

Lemma velocitiesAfter_constant (c dt : R) (n k : nat) :
  (k < n)%nat ->
  nth k (velocitiesAfter (repeat c n) dt k) 0 = INR k * dt * c.
Proof.
  induction k as [|k IH]; intros Hk.
  - simpl. ring.
  - rewrite velocitiesAfter_last, IH by lia.
    rewrite !nth_repeat_lt by lia. rewrite S_INR. lra.
Qed.

(** Under a constant acceleration c the integrated velocity grows linearly:
    sample i of the result is i * dt * c. *)
Theorem accelerationToVelocity_constant :
  forall (c dt : R) (n i : nat),
    (i < n)%nat ->
    length (accelerationToVelocity (repeat c n) dt) = n /\
    nth i (accelerationToVelocity (repeat c n) dt) 0 = INR i * dt * c.
Proof.
  intros c dt n i Hi. split.
  - rewrite accelerationToVelocity_length, repeat_length. lia.
  - change (accelerationToVelocity (repeat c n) dt)
      with (velocitiesAfter (repeat c n) dt (length (repeat c n) - 1)).
    rewrite repeat_length.
    replace (n - 1)%nat with (i + (n - 1 - i))%nat by lia.
    rewrite velocitiesAfter_prefix by lia.
    now apply velocitiesAfter_constant.
Qed.

Lemma accelerationToVelocity_constant_witness :
  length (accelerationToVelocity (repeat 3 5) 2) = 5%nat /\
  nth 4 (accelerationToVelocity (repeat 3 5) 2) 0 = INR 4 * 2 * 3.
Proof.
  apply (accelerationToVelocity_constant 3 2 5 4). lia.
Defined.

(** For a non-empty raw series the processed series of [prepareChartData]
    has as many samples as the raw series, whichever unit is selected. *)
Theorem processData_length :
  forall (rawAxisData : list R) (selectedUnit : string) (timeInterval : R),
    rawAxisData <> [] ->
    length (fst (processData rawAxisData selectedUnit timeInterval))
    = length rawAxisData.
Proof.
  intros raw unit dt Hne. unfold processData.
  destruct (String.eqb unit "Acceleration (G)"); cbn [fst];
    [now rewrite length_map|].
  destruct (String.eqb unit "Acceleration (mm/s²)"); cbn [fst];
    [now rewrite length_map|].
  rewrite accelerationToVelocity_length, length_map.
  destruct raw; [contradiction | simpl; lia].
Qed.

Lemma processData_length_witness :
  length (fst (processData [512; 612; 412] "Velocity (mm/s)" 0.02)) = 3%nat.
Proof.
  apply (processData_length [512; 612; 412] "Velocity (mm/s)" 0.02).
  discriminate.
Defined.

Lemma processSelectedUnit_data (raw : list R) (unit : string) (dt : R) :
  fst (processSelectedUnit raw unit dt) = fst (processData raw unit dt).
Proof.
  unfold processSelectedUnit, processData.
  destruct (String.eqb unit "Acceleration (G)"); [reflexivity|].
  destruct (String.eqb unit "Acceleration (mm/s²)"); reflexivity.
Qed.

(** Whatever the unit, the processed series is as long as the raw series,
    except that the velocity of an empty series is the one sample 0. *)
Lemma processData_length_any (raw : list R) (unit : string) (dt : R) :
  length (fst (processData raw unit dt)) = length raw \/
  (raw = [] /\ length (fst (processData raw unit dt)) = 1%nat).
Proof.
  destruct raw as [|r raw].
  - unfold processData.
    destruct (String.eqb unit "Acceleration (G)"); [now left|].
    destruct (String.eqb unit "Acceleration (mm/s²)"); [now left|].
    right. split; reflexivity.
  - left. apply processData_length. discriminate.
Qed.

(** ** The frequency chart *)

Lemma Array_set_length {A : Type} (l : list A) (i : nat) (v : A) :
  length (Array_set l i v) = length l.
Proof.
  revert i. induction l as [|h t IH]; intros [|i]; simpl; auto.
Qed.

Lemma Array_set_nth {A : Type} (l : list A) (i j : nat) (v d : A) :
  (i < length l)%nat ->
  nth j (Array_set l i v) d = if (j =? i)%nat then v else nth j l d.
Proof.
  revert i j. induction l as [|h t IH]; intros i j Hi; [simpl in Hi; lia|].
  destruct i as [|i], j as [|j]; simpl; try reflexivity.
  apply IH. simpl in Hi. lia.
Qed.

Lemma highlight_length (idxs : list nat) (colors : list string) :
  length (fold_left (fun colors idx => Array_set colors idx "red"%string)
            idxs colors) = length colors.
Proof.
  revert colors. induction idxs as [|i idxs IH]; intros colors; simpl;
    [reflexivity|].
  now rewrite IH, Array_set_length.
Qed.

Lemma highlight_nth (idxs : list nat) (colors : list string) (j : nat) :
  Forall (fun idx => (idx < length colors)%nat) idxs ->
  nth j (fold_left (fun colors idx => Array_set colors idx "red"%string)
           idxs colors) ""%string
  = if existsb (Nat.eqb j) idxs then "red"%string else nth j colors ""%string.
Proof.
  revert colors. induction idxs as [|i idxs IH]; intros colors Hin; simpl;
    [reflexivity|].
  inversion Hin as [|? ? Hi Hrest]; subst.
  rewrite IH by (rewrite Array_set_length; exact Hrest).
  rewrite Array_set_nth by assumption.
  destruct (j =? i)%nat; simpl; [|reflexivity].
  now destruct (existsb (Nat.eqb j) idxs).
Qed.

(** The frequency chart of a spectrum leaves out the DC bin: its labels and
    its data are the frequencies and magnitudes of bins 1, 2, ..., it has one
    point colour per remaining bin, and a point is red exactly when its bin
    is one of the top peaks (every other point keeps the line colour). *)
Theorem frequencyDomain_chart :
  forall (toFixed : R -> nat -> string) (numberToString : R -> string)
         (yAxisLabel : string) (bins : list (R * R)),
    let spectrum := {| magnitude := map snd bins; frequency := map fst bins |} in
    let chart := fst (frequencyDomain toFixed numberToString yAxisLabel spectrum) in
    let idxs := topIndicesOf (skipn 1 (magnitude spectrum)) in
    FreqData.labels chart = skipn 1 (frequency spectrum) /\
    exists dataset colors,
      FreqData.datasets chart = [dataset] /\
      data dataset = skipn 1 (magnitude spectrum) /\
      pointBackgroundColor dataset = Some colors /\
      length colors = (length bins - 1)%nat /\
      forall j, (j < length bins - 1)%nat ->
        (In j idxs -> nth j colors ""%string = "red"%string) /\
        (~ In j idxs -> nth j colors ""%string = pointColor).
Proof.
  intros toFixed numberToString yAxisLabel bins spectrum chart idxs.
  subst chart idxs spectrum. unfold frequencyDomain. cbn [magnitude frequency].
  destruct bins as [|b bins].
  - cbn. split; [reflexivity|]. eexists _, []. repeat split; simpl in *; lia.
  - cbn [map length Nat.eqb orb skipn fst FreqData.labels FreqData.datasets].
    split; [reflexivity|].
    eexists _, _. split; [reflexivity|]. cbn [data pointBackgroundColor].
    split; [reflexivity|]. split; [reflexivity|].
    set (fm := map snd bins).
    assert (Hidx : (if (0 <? length fm)%nat then topIndicesOf fm else [])
                   = topIndicesOf fm).
    { destruct fm; reflexivity. }
    rewrite Hidx.
    destruct (topIndicesOf_spec fm) as (_ & _ & Hin & _).
    split.
    + rewrite highlight_length, repeat_length. subst fm.
      rewrite length_map. simpl. lia.
    + intros j Hj.
      rewrite highlight_nth by (now rewrite repeat_length).
      assert (Hj' : (j < length fm)%nat)
        by (subst fm; rewrite length_map; simpl in Hj; lia).
      rewrite (nth_repeat_lt pointColor ""%string Hj').
      split; intros H.
      * replace (existsb (Nat.eqb j) (topIndicesOf fm)) with true; [reflexivity|].
        symmetry. apply existsb_exists. exists j. split; [exact H|].
        apply Nat.eqb_refl.
      * destruct (existsb (Nat.eqb j) (topIndicesOf fm)) eqn:E; [|reflexivity].
        apply existsb_exists in E. destruct E as (i & Hi & Hji).
        apply Nat.eqb_eq in Hji. subst i. contradiction.
Qed.

(** ** Statistics of the last data (first version of the page) *)

Lemma sensitivityOf_default : sensitivityOf defaultRange = 17367.
Proof.
  unfold sensitivityOf, defaultRange.
  destruct (Req_dec_T 2 2); [reflexivity | lra].
Qed.

Lemma adcToAccelerationG_default (adc : R) :
  adcToAccelerationG adc defaultRange = (adc - 512) / 17367.
Proof. unfold adcToAccelerationG. now rewrite sensitivityOf_default. Qed.

Lemma fold_left_Rmax_init (l : list R) (a : R) : a <= fold_left Rmax l a.
Proof.
  revert a. induction l as [|v l IH]; intros a; simpl; [lra|].
  eapply Rle_trans; [apply (Rmax_l a v) | apply IH].
Qed.

Lemma fold_left_Rmax_ge (l : list R) (a v : R) :
  In v l -> v <= fold_left Rmax l a.
Proof.
  revert a. induction l as [|w l IH]; intros a Hin; [contradiction|].
  simpl. destruct Hin as [<-|Hin]; [|now apply IH].
  eapply Rle_trans; [apply (Rmax_r a w) | apply fold_left_Rmax_init].
Qed.

Lemma fold_left_Rmax_le (l : list R) (a b : R) :
  a <= b -> Forall (fun v => v <= b) l -> fold_left Rmax l a <= b.
Proof.
  revert a. induction l as [|w l IH]; intros a Ha Hl; simpl; [assumption|].
  inversion Hl; subst. apply IH; [now apply Rmax_lub | assumption].
Qed.

Lemma fold_left_Rmin_init (l : list R) (a : R) : fold_left Rmin l a <= a.
Proof.
  revert a. induction l as [|v l IH]; intros a; simpl; [lra|].
  eapply Rle_trans; [apply IH | apply Rmin_l].
Qed.

Lemma fold_left_Rmin_ge (l : list R) (a b : R) :
  b <= a -> Forall (fun v => b <= v) l -> b <= fold_left Rmin l a.
Proof.
  revert a. induction l as [|w l IH]; intros a Ha Hl; simpl; [assumption|].
  inversion Hl; subst. apply IH; [now apply Rmin_glb | assumption].
Qed.

(** The largest argument of [Math.max] bounds every argument, and every
    bound of the arguments bounds it. *)
Lemma Math_max_spec (l : list R) (m : R) :
  Math_max l = Some m ->
  Forall (fun v => v <= m) l /\
  forall b, Forall (fun v => v <= b) l -> m <= b.
Proof.
  destruct l as [|a l]; [discriminate|]. simpl. intros [= <-]. split.
  - constructor; [apply fold_left_Rmax_init|].
    apply Forall_forall. intros v Hv. now apply fold_left_Rmax_ge.
  - intros b Hb. inversion Hb; subst. now apply fold_left_Rmax_le.
Qed.

Lemma sumOfSquares_le (l : list R) (m : R) :
  Forall (fun v => Rabs v <= m) l ->
  sumOfSquares l <= INR (length l) * (m * m).
Proof.
  induction 1 as [|v l Hv Hl IH].
  - unfold sumOfSquares. simpl. lra.
  - change (sumOfSquares (v :: l)) with (v * v + sumOfSquares l).
    change (length (v :: l)) with (S (length l)). rewrite S_INR.
    assert (Hvv : v * v <= m * m).
    { assert (0 <= Rabs v) by apply Rabs_pos.
      replace (v * v) with (Rabs v * Rabs v)
        by (rewrite <- Rabs_mult; apply Rabs_pos_eq; nra).
      nra. }
    lra.
Qed.

(** The rms of a non-empty series is at least 0 and at most every bound of
    the absolute samples. *)
Lemma rmsOfSamples_le (l : list R) (m : R) :
  l <> [] ->
  Forall (fun v => Rabs v <= m) l ->
  exists r, rmsOfSamples l = Some r /\ 0 <= r <= m.
Proof.
  intros Hne Hm.
  assert (Hm0 : 0 <= m).
  { destruct l as [|v l]; [contradiction|]. inversion Hm; subst.
    eapply Rle_trans; [apply Rabs_pos | eassumption]. }
  exists (sqrt (sumOfSquares l / INR (length l))).
  assert (Hn : 0 < INR (length l)).
  { apply lt_0_INR. destruct l; [contradiction | simpl; lia]. }
  split.
  - destruct l as [|v l']; [contradiction|]. unfold rmsOfSamples.
    now rewrite fold_left_sumOfSquares, Rplus_0_l.
  - split; [apply sqrt_pos|].
    rewrite <- (sqrt_square m) by assumption.
    apply sqrt_le_1_alt.
    apply Rmult_le_reg_r with (INR (length l)); [assumption|].
    replace (sumOfSquares l / INR (length l) * INR (length l))
      with (sumOfSquares l) by (field; lra).
    rewrite (Rmult_comm (m * m)). now apply sumOfSquares_le.
Qed.

Lemma Forall_Rabs_map (l : list R) (m : R) :
  Forall (fun v => v <= m) (map Rabs l) -> Forall (fun v => Rabs v <= m) l.
Proof. intros H. now apply Forall_map in H. Qed.

(** Each axis: rms and peak exist for a non-empty series, the rms is at most
    the peak, and the peak is at most every bound of the absolute values. *)
Lemma axis_rms_peak (xG : list R) :
  xG <> [] ->
  exists r p,
    rmsOfSamples xG = Some r /\ Math_max (map Rabs xG) = Some p /\
    0 <= r <= p /\
    forall b, Forall (fun v => Rabs v <= b) xG -> p <= b.
Proof.
  intros Hne.
  destruct (Math_max (map Rabs xG)) as [p|] eqn:Ep;
    [|destruct xG; [contradiction | discriminate]].
  destruct (Math_max_spec _ _ Ep) as [Hall Hlub].
  destruct (rmsOfSamples_le xG p Hne (Forall_Rabs_map _ _ Hall)) as (r & Hr & Hrp).
  exists r, p. repeat split; try assumption; try apply Hrp.
  intros b Hb. apply Hlub. now apply Forall_map.
Qed.

Lemma rmsTotal_le (rx ry rz P : R) :
  0 <= rx <= P -> 0 <= ry <= P -> 0 <= rz <= P ->
  0 <= sqrt ((rx * rx + ry * ry + rz * rz) / 3) <= P.
Proof.
  intros Hx Hy Hz. split; [apply sqrt_pos|].
  rewrite <- (sqrt_square P) by lra.
  apply sqrt_le_1_alt. nra.
Qed.

(** What the three-array branch computes when no axis is empty. *)
Lemma vibrationTotalsOfArrays_nonempty (x y z : list R) :
  x <> [] -> y <> [] -> z <> [] ->
  exists r p,
    vibrationTotalsOfArrays x y z = (Some r, Some p) /\
    0 <= r <= p /\
    forall b, Forall (fun adc => Rabs (adc - 512) <= b) (x ++ y ++ z) ->
              p <= b / 17367.
Proof.
  intros Hx Hy Hz. unfold vibrationTotalsOfArrays.
  set (toG := fun adc => adcToAccelerationG adc defaultRange).
  assert (Hne : forall l : list R, l <> [] -> map toG l <> []).
  { intros [|? ?] H; [contradiction | discriminate]. }
  destruct (axis_rms_peak _ (Hne x Hx)) as (rx & px & -> & -> & Hrx & Hbx).
  destruct (axis_rms_peak _ (Hne y Hy)) as (ry & py & -> & -> & Hry & Hby).
  destruct (axis_rms_peak _ (Hne z Hz)) as (rz & pz & -> & -> & Hrz & Hbz).
  cbn [maxOrNegInfinity].
  eexists _, _. split; [reflexivity|]. split.
  - apply rmsTotal_le.
    + split; [apply Hrx|]. eapply Rle_trans; [apply Hrx | apply Rmax_l].
    + split; [apply Hry|]. eapply Rle_trans; [apply Hry|].
      eapply Rle_trans; [apply (Rmax_l py pz) | apply Rmax_r].
    + split; [apply Hrz|]. eapply Rle_trans; [apply Hrz|].
      eapply Rle_trans; [apply (Rmax_r py pz) | apply Rmax_r].
  - intros b Hb.
    assert (HG : forall l, Forall (fun adc => Rabs (adc - 512) <= b) l ->
                           Forall (fun v => Rabs v <= b / 17367) (map toG l)).
    { intros l Hl. apply Forall_map. eapply Forall_impl; [|exact Hl].
      intros adc Hadc. cbn beta. subst toG. cbn beta.
      rewrite adcToAccelerationG_default. unfold Rdiv.
      rewrite Rabs_mult, (Rabs_pos_eq (/ 17367)) by lra.
      apply Rmult_le_compat_r; [lra | exact Hadc]. }
    apply Forall_app in Hb. destruct Hb as [Hbx' Hb].
    apply Forall_app in Hb. destruct Hb as [Hby' Hbz'].
    repeat apply Rmax_lub; [apply Hbx | apply Hby | apply Hbz]; now apply HG.
Qed.

Lemma vibrationStatus_le_half (r : R) : r <= 0.5 -> vibrationStatus r = Normal.
Proof.
  intros Hr.
  destruct (vibrationStatus_cases r) as [[? ->]|[(? & ? & ->)|[? ->]]];
    (reflexivity || lra).
Qed.

(** When every sample of the three axes is within 8683.5 counts of the
    offset 512 (half of the sensitivity 17367; every 10-bit reading is), the
    status the effect sets is "Normal". *)
Theorem vibrationStatsOfArrays_normal :
  forall (toFixed : R -> nat -> string) (x y z : list R),
    x <> [] -> y <> [] -> z <> [] ->
    Forall (fun adc => Rabs (adc - 512) <= 8683.5) (x ++ y ++ z) ->
    VibrationStats.status (vibrationStatsOfArrays toFixed x y z) = "Normal"%string.
Proof.
  intros toFixed x y z Hx Hy Hz Hb. unfold vibrationStatsOfArrays.
  destruct (vibrationTotalsOfArrays_nonempty x y z Hx Hy Hz)
    as (r & p & -> & Hrp & Hbound).
  specialize (Hbound _ Hb). cbn [VibrationStats.status statusOfRmsTotal].
  rewrite vibrationStatus_le_half; [reflexivity | lra].
Qed.

Lemma vibrationStatsOfArrays_normal_witness :
  VibrationStats.status
    (vibrationStatsOfArrays Number_toFixed [0; 1023] [512] [1023; 0])
  = "Normal"%string.
Proof.
  apply (vibrationStatsOfArrays_normal Number_toFixed
           [0; 1023] [512] [1023; 0]); try discriminate.
  repeat constructor; unfold Rabs; destruct (Rcase_abs _); lra.
Defined.

(** An axis without samples beside a non-empty first axis: the rms the
    effect sets is "NaN" and the status is "Normal", whatever the samples of
    the other axes are. *)
Theorem vibrationStatsEffect_empty_axis :
  forall (toFixed : R -> nat -> string) (x y z : list R),
    x <> [] -> y = [] \/ z = [] ->
    exists stats,
      vibrationStatsEffect toFixed
        (Some {| LastData.x := SampleArray x; LastData.y := SampleArray y;
                 LastData.z := SampleArray z |}) = Some stats /\
      VibrationStats.rms stats = "NaN"%string /\
      VibrationStats.status stats = "Normal"%string.
Proof.
  intros toFixed x y z Hx Hyz. unfold vibrationStatsEffect.
  cbn [LastData.x LastData.y LastData.z].
  destruct x as [|x0 x]; [contradiction|]. cbn [length Nat.ltb Nat.leb].
  eexists. split; [reflexivity|].
  unfold vibrationStatsOfArrays, vibrationTotalsOfArrays.
  destruct Hyz as [-> | ->].
  - cbn [map rmsOfSamples]. split; reflexivity.
  - cbn [map rmsOfSamples].
    destruct (rmsOfSamples (map _ y)); split; reflexivity.
Qed.

Lemma vibrationStatsEffect_empty_axis_witness :
  exists stats,
    vibrationStatsEffect Number_toFixed
      (Some {| LastData.x := SampleArray [30000; 30000];
               LastData.y := SampleArray [];
               LastData.z := SampleArray [512] |}) = Some stats /\
    VibrationStats.rms stats = "NaN"%string /\
    VibrationStats.status stats = "Normal"%string.
Proof.
  apply (vibrationStatsEffect_empty_axis Number_toFixed
           [30000; 30000] [] [512]); [discriminate | now left].
Defined.




(** ** The charts of the first version of the page *)

Lemma calculateFFT_short rt (timeData : list R) :
  (length timeData < 2)%nat ->
  calculateFFT rt timeData =
  Throws "FFT size must be a power of two and bigger than 1".
Proof.
  destruct timeData as [|a [|b l]]; simpl; intros H; try reflexivity; lia.
Qed.

(** With samples on the first axis, [prepareVibrationData] throws whenever
    the selected axis holds fewer than two samples, whichever unit is
    selected: the series reaches [calculateFFT] with 0 or 1 sample. *)
Theorem prepareVibrationData_throws :
  forall (rt : FFT -> list R -> nat -> R) (toFixed : R -> nat -> string)
         (x y z : list R) (selectedAxis selectedUnit : string),
    x <> [] ->
    (length (selectAxis selectedAxis x y z) < 2)%nat ->
    prepareVibrationData rt toFixed
      (Some {| LastData.x := SampleArray x; LastData.y := SampleArray y;
               LastData.z := SampleArray z |}) selectedAxis selectedUnit
    = Throws "FFT size must be a power of two and bigger than 1".
Proof.
  intros rt toFixed x y z axis unit Hx Hlen. unfold prepareVibrationData.
  cbn [LastData.x LastData.y LastData.z].
  destruct x as [|x0 x]; [contradiction|]. cbn [length Nat.eqb].
  set (raw := selectAxis axis (x0 :: x) y z) in *.
  pose proof (processSelectedUnit_data raw unit (1 / SAMPLING_RATE)) as Hdata.
  destruct (processSelectedUnit raw unit (1 / SAMPLING_RATE)) as [pd lbl].
  cbn [fst] in Hdata.
  rewrite calculateFFT_short; [reflexivity|].
  rewrite Hdata.
  destruct (processData_length_any raw unit (1 / SAMPLING_RATE)) as [-> | [_ ->]];
    lia.
Qed.

Lemma prepareVibrationData_throws_witness :
  prepareVibrationData (fun _ _ _ => 0) Number_toFixed
    (Some {| LastData.x := SampleArray [600; 610; 590];
             LastData.y := SampleArray [];
             LastData.z := SampleArray [512; 512; 512] |})
    "V-axis" "Velocity (mm/s)"
  = Throws "FFT size must be a power of two and bigger than 1".
Proof.
  apply (prepareVibrationData_throws (fun _ _ _ => 0) Number_toFixed
           [600; 610; 590] [] [512; 512; 512] "V-axis" "Velocity (mm/s)");
    [discriminate | simpl; lia].
Defined.

(** With samples on the first axis and n >= 2 samples on the selected axis,
    [prepareVibrationData] returns charts: the time chart has n labels and n
    samples, and the frequency chart has n labels, starting at 0, and n
    magnitudes (the DC bin is kept here). *)
Theorem prepareVibrationData_returns :
  forall (rt : FFT -> list R -> nat -> R) (toFixed : R -> nat -> string)
         (x y z : list R) (selectedAxis selectedUnit : string),
    x <> [] ->
    (2 <= length (selectAxis selectedAxis x y z))%nat ->
    let n := length (selectAxis selectedAxis x y z) in
    exists timeChart timeSet freqChart freqSet label,
      prepareVibrationData rt toFixed
        (Some {| LastData.x := SampleArray x; LastData.y := SampleArray y;
                 LastData.z := SampleArray z |}) selectedAxis selectedUnit
      = Returns {| VibrationData.hasData := true;
                   VibrationData.timeData := Some timeChart;
                   VibrationData.freqData := Some freqChart;
                   VibrationData.yAxisLabel := Some label |} /\
      TimeChart.datasets timeChart = [timeSet] /\
      FreqData.datasets freqChart = [freqSet] /\
      length (TimeChart.labels timeChart) = n /\
      length (data timeSet) = n /\
      length (FreqData.labels freqChart) = n /\
      length (data freqSet) = n /\
      nth 0 (FreqData.labels freqChart) 0 = 0.
Proof.
  intros rt toFixed x y z axis unit Hx Hlen n. unfold prepareVibrationData.
  cbn [LastData.x LastData.y LastData.z].
  destruct x as [|x0 x]; [contradiction|]. cbn [length Nat.eqb].
  set (raw := selectAxis axis (x0 :: x) y z) in *.
  pose proof (processSelectedUnit_data raw unit (1 / SAMPLING_RATE)) as Hdata.
  destruct (processSelectedUnit raw unit (1 / SAMPLING_RATE)) as [pd lbl].
  cbn [fst] in Hdata.
  assert (Hpd : length pd = n).
  { rewrite Hdata. apply processData_length. intros E. rewrite E in Hlen.
    simpl in Hlen. lia. }
  rewrite calculateFFT_returns by (rewrite Hpd; exact Hlen).
  cbn [bindC magnitude frequency].
  eexists _, _, _, _, _. split; [reflexivity|].
  cbn [TimeChart.datasets TimeChart.labels FreqData.datasets FreqData.labels data].
  repeat split; cbn [data]; rewrite ?length_map, ?length_seq;
    try assumption; try reflexivity.
  rewrite nth_map_seq by lia. apply binFrequency_0.
Qed.

Lemma prepareVibrationData_returns_witness :
  exists result,
    prepareVibrationData (fun _ _ _ => 0) Number_toFixed
      (Some {| LastData.x := SampleArray [600; 610; 590];
               LastData.y := SampleArray [];
               LastData.z := SampleArray [512; 512; 512] |})
      "H-axis" "Acceleration (G)"
    = Returns result /\ VibrationData.hasData result = true.
Proof.
  assert (Hx : [600; 610; 590] <> @nil R) by discriminate.
  assert (Hn : (2 <= length (selectAxis "H-axis" [600; 610; 590] []
                               [512; 512; 512]))%nat) by (simpl; lia).
  destruct (prepareVibrationData_returns (fun _ _ _ => 0) Number_toFixed
              [600; 610; 590] [] [512; 512; 512] "H-axis" "Acceleration (G)"
              Hx Hn) as (tc & ts & fc & fs & lbl & Hret & _).
  eexists. split; [exact Hret | reflexivity].
Defined.

(** ** "Overall Statistics" of the first version of the page *)

Lemma Math_min_spec (l : list R) (m : R) :
  Math_min l = Some m ->
  (forall b, Forall (fun v => b <= v) l -> b <= m) /\
  exists v, In v l /\ m <= v.
Proof.
  destruct l as [|a l]; [discriminate|]. simpl. intros [= <-]. split.
  - intros b Hb. inversion Hb; subst. now apply fold_left_Rmin_ge.
  - exists a. split; [now left | apply fold_left_Rmin_init].
Qed.

Lemma fold_left_Rmax_in (l : list R) (a : R) :
  fold_left Rmax l a = a \/ In (fold_left Rmax l a) l.
Proof.
  revert a. induction l as [|w l IH]; intros a; simpl; [now left|].
  destruct (IH (Rmax a w)) as [E|Hin]; [|now right; right].
  rewrite E. unfold Rmax. destruct (Rle_dec a w); [right; now left | now left].
Qed.

Lemma fold_left_Rmin_in (l : list R) (a : R) :
  fold_left Rmin l a = a \/ In (fold_left Rmin l a) l.
Proof.
  revert a. induction l as [|w l IH]; intros a; simpl; [now left|].
  destruct (IH (Rmin a w)) as [E|Hin]; [|now right; right].
  rewrite E. unfold Rmin. destruct (Rle_dec a w); [now left | right; now left].
Qed.

Lemma Math_max_in (l : list R) (m : R) : Math_max l = Some m -> In m l.
Proof.
  destruct l as [|a l]; [discriminate|]. simpl. intros [= <-].
  destruct (fold_left_Rmax_in l a) as [-> | H]; [now left | now right].
Qed.

Lemma Math_min_in (l : list R) (m : R) : Math_min l = Some m -> In m l.
Proof.
  destruct l as [|a l]; [discriminate|]. simpl. intros [= <-].
  destruct (fold_left_Rmin_in l a) as [-> | H]; [now left | now right].
Qed.

Lemma Math_min_le (l : list R) (m : R) :
  Math_min l = Some m -> Forall (fun v => m <= v) l.
Proof.
  destruct l as [|a l]; [discriminate|]. simpl. intros [= <-].
  assert (H : forall (l : list R) (a v : R), In v l -> fold_left Rmin l a <= v).
  { clear. induction l as [|w l IH]; intros a v Hin; [contradiction|].
    simpl. destruct Hin as [<-|Hin]; [|now apply IH].
    eapply Rle_trans; [apply fold_left_Rmin_init | apply Rmin_r]. }
  constructor; [apply fold_left_Rmin_init|].
  apply Forall_forall. intros v Hv. now apply H.
Qed.

Lemma sumOfSquares_Rabs (l : list R) :
  sumOfSquares (map Rabs l) = sumOfSquares l.
Proof.
  induction l as [|v l IH]; [reflexivity|].
  change (sumOfSquares (map Rabs (v :: l)))
    with (Rabs v * Rabs v + sumOfSquares (map Rabs l)).
  change (sumOfSquares (v :: l)) with (v * v + sumOfSquares l).
  rewrite IH. f_equal. rewrite <- Rabs_mult. apply Rabs_pos_eq. nra.
Qed.

(** For a non-empty axis of integer readings the numbers behind "Overall
    Statistics" are: rms = sqrt of the mean of the squared readings, / 1000;
    peak = the largest absolute reading, / 1000; peak-to-peak = the largest
    minus the smallest absolute reading, / 1000 (the spread of the absolute
    values, not of the readings).  Hence 0 <= rms <= peak and
    0 <= peak-to-peak <= peak. *)
Theorem rawAxisStatistics_bounds :
  forall readings : list Z,
    readings <> [] ->
    let axisData := map IZR readings in
    exists rms peak peakToPeak hi lo,
      rawAxisStatistics axisData = Some (rms, peak, peakToPeak) /\
      In hi axisData /\ In lo axisData /\
      Forall (fun v => Rabs lo <= Rabs v <= Rabs hi) axisData /\
      rms = sqrt (sumOfSquares axisData / INR (length axisData)) / 1000 /\
      peak = Rabs hi / 1000 /\
      peakToPeak = (Rabs hi - Rabs lo) / 1000 /\
      0 <= rms <= peak /\ 0 <= peakToPeak <= peak.
Proof.
  intros readings Hne0 axisData.
  assert (Hne : axisData <> []).
  { subst axisData. destruct readings; [contradiction | discriminate]. }
  clearbody axisData. clear readings Hne0.
  unfold rawAxisStatistics.
  set (absValues := map Rabs axisData).
  assert (Hne' : absValues <> []).
  { subst absValues. destruct axisData; [contradiction | discriminate]. }
  assert (Hpos : Forall (fun v => 0 <= v) absValues).
  { subst absValues. apply Forall_map, Forall_forall. intros v _. apply Rabs_pos. }
  destruct (Math_max absValues) as [max|] eqn:Emax;
    [|destruct absValues; [contradiction | discriminate]].
  destruct (Math_min absValues) as [min|] eqn:Emin;
    [|destruct absValues; [contradiction | discriminate]].
  destruct (Math_max_spec _ _ Emax) as [Hmax _].
  pose proof (Math_min_le _ _ Emin) as Hmin.
  pose proof (Math_max_in _ _ Emax) as Hmaxin.
  pose proof (Math_min_in _ _ Emin) as Hminin.
  unfold absValues in Hmaxin, Hminin.
  apply in_map_iff in Hmaxin. destruct Hmaxin as (hi & Ehi & Hhi).
  apply in_map_iff in Hminin. destruct Hminin as (lo & Elo & Hlo).
  assert (Hmin0 : 0 <= min) by (rewrite <- Elo; apply Rabs_pos).
  assert (Hminmax : min <= max).
  { rewrite Forall_forall in Hmax. apply Hmax. rewrite <- Elo.
    unfold absValues. now apply in_map. }
  assert (Habs : Forall (fun v => Rabs v <= max) absValues).
  { rewrite Forall_forall in Hmax, Hpos |- *. intros w Hw.
    rewrite Rabs_pos_eq by now apply Hpos. now apply Hmax. }
  destruct (rmsOfSamples_le absValues max Hne' Habs) as (r & Hr & Hr0 & Hrmax).
  assert (Er : r = sqrt (fold_left (fun acc val => acc + val * val) absValues 0
                         / INR (length absValues))).
  { destruct absValues; [contradiction|]. simpl in Hr. now injection Hr as <-. }
  rewrite <- Er.
  exists (r / 1000), (max / 1000), ((max - min) / 1000), hi, lo.
  split; [reflexivity|]. split; [assumption|]. split; [assumption|].
  split.
  { rewrite Forall_forall in Hmax, Hmin |- *. intros v Hv.
    rewrite Ehi, Elo. split; [apply Hmin | apply Hmax];
      unfold absValues; now apply in_map. }
  split.
  { rewrite Er, fold_left_sumOfSquares, Rplus_0_l. unfold absValues.
    now rewrite sumOfSquares_Rabs, length_map. }
  rewrite Ehi, Elo. repeat split; lra.
Qed.

Lemma rawAxisStatistics_bounds_witness :
  exists rms peak peakToPeak hi lo,
    rawAxisStatistics [-300; 512; 100] = Some (rms, peak, peakToPeak) /\
    In hi [-300; 512; 100] /\ In lo [-300; 512; 100] /\
    Forall (fun v => Rabs lo <= Rabs v <= Rabs hi) [-300; 512; 100] /\
    rms = sqrt (sumOfSquares [-300; 512; 100] / INR 3) / 1000 /\
    peak = Rabs hi / 1000 /\
    peakToPeak = (Rabs hi - Rabs lo) / 1000 /\
    0 <= rms <= peak /\ 0 <= peakToPeak <= peak.
Proof.
  apply (rawAxisStatistics_bounds [-300; 512; 100]%Z). discriminate.
Defined.

(** ** The sensor list view *)

Lemma Math_ceil_div (n k : nat) :
  (0 < k)%nat ->
  Math_ceil (INR n / INR k) = Z.of_nat ((n + (k - 1)) / k).
Proof.
  intros Hk. unfold Math_ceil. apply Zceil_eq.
  rewrite <- INR_IZR_INZ.
  set (q := ((n + (k - 1)) / k)%nat).
  assert (Hk' : 0 < INR k) by now apply lt_0_INR.
  assert (Hdiv : (k * q <= n + (k - 1) < k * q + k)%nat).
  { pose proof (Nat.div_mod_eq (n + (k - 1)) k) as E. fold q in E.
    pose proof (Nat.mod_upper_bound (n + (k - 1)) k ltac:(lia)). lia. }
  assert (H1 : (k * q < n + k)%nat) by lia.
  assert (H2 : (n <= k * q)%nat) by lia.
  apply lt_INR in H1. apply le_INR in H2.
  rewrite plus_INR, mult_INR in H1. rewrite mult_INR in H2.
  split.
  - apply Rmult_lt_reg_r with (INR k); [assumption|].
    replace (INR n / INR k * INR k) with (INR n) by (field; lra). lra.
  - apply Rmult_le_reg_r with (INR k); [assumption|].
    replace (INR n / INR k * INR k) with (INR n) by (field; lra). lra.
Qed.

Lemma listView_cuts (n : nat) :
  Z.to_nat (Math_ceil (INR n / 3)) = ((n + 2) / 3)%nat /\
  Z.to_nat (Math_ceil (INR n * 2 / 3)) = ((2 * n + 2) / 3)%nat.
Proof.
  split.
  - replace (INR n / 3) with (INR n / INR 3) by (simpl; lra).
    rewrite Math_ceil_div by lia. now rewrite Nat2Z.id.
  - replace (INR n * 2 / 3) with (INR (2 * n) / INR 3)
      by (rewrite mult_INR; simpl; lra).
    rewrite Math_ceil_div by lia. now rewrite Nat2Z.id.
Qed.

(** The three tables of the list view split the sensors without losing or
    repeating one: in order they give back the list, and their sizes are
    non-increasing and differ by at most one. *)
Theorem listViewTables_partition :
  forall (A : Type) (sensors : list A),
    let '(table1, table2, table3) := listViewTables sensors in
    table1 ++ table2 ++ table3 = sensors /\
    (length table3 <= length table2 <= length table1)%nat /\
    (length table1 <= length table3 + 1)%nat.
Proof.
  intros A sensors. unfold listViewTables.
  destruct (listView_cuts (length sensors)) as [-> ->].
  set (n := length sensors).
  set (a := ((n + 2) / 3)%nat). set (b := ((2 * n + 2) / 3)%nat).
  assert (Ha : (3 * a <= n + 2 < 3 * a + 3)%nat).
  { subst a. pose proof (Nat.div_mod_eq (n + 2) 3).
    pose proof (Nat.mod_upper_bound (n + 2) 3 ltac:(lia)). lia. }
  assert (Hb : (3 * b <= 2 * n + 2 < 3 * b + 3)%nat).
  { subst b. pose proof (Nat.div_mod_eq (2 * n + 2) 3).
    pose proof (Nat.mod_upper_bound (2 * n + 2) 3 ltac:(lia)). lia. }
  assert (Hab : (a <= b <= n)%nat) by lia.
  unfold Array_slice, Array_sliceFrom. rewrite Nat.sub_0_r.
  cbn [skipn].
  split.
  - replace (skipn b sensors) with (skipn (b - a) (skipn a sensors))
      by (rewrite skipn_skipn; f_equal; lia).
    now rewrite firstn_skipn, firstn_skipn.
  - rewrite !length_firstn, !length_skipn. fold n. lia.
Qed.

(** The number of pages is the smallest number of pages of
    [sensorsPerPage] rows that holds [total] sensors. *)
Theorem totalPagesOf_smallest :
  forall total sensorsPerPage : nat,
    (0 < sensorsPerPage)%nat ->
    exists pages : nat,
      totalPagesOf total sensorsPerPage = Z.of_nat pages /\
      (total <= pages * sensorsPerPage)%nat /\
      forall p, (total <= p * sensorsPerPage)%nat -> (pages <= p)%nat.
Proof.
  intros total k Hk. unfold totalPagesOf. rewrite Math_ceil_div by assumption.
  set (q := ((total + (k - 1)) / k)%nat). exists q.
  assert (Hdiv : (k * q <= total + (k - 1) < k * q + k)%nat).
  { pose proof (Nat.div_mod_eq (total + (k - 1)) k) as E. fold q in E.
    pose proof (Nat.mod_upper_bound (total + (k - 1)) k ltac:(lia)). lia. }
  split; [reflexivity|]. split; [nia|].
  intros p Hp. destruct (Nat.le_gt_cases q p) as [|Hlt]; [assumption|].
  assert (p * k + k <= q * k)%nat by nia. nia.
Qed.

Lemma totalPagesOf_smallest_witness :
  exists pages : nat,
    totalPagesOf 401 200 = Z.of_nat pages /\
    (401 <= pages * 200)%nat /\
    forall p, (401 <= p * 200)%nat -> (pages <= p)%nat.
Proof.
  apply (totalPagesOf_smallest 401 200). lia.
Defined.

Lemma Math_round_gt (t : R) (c : Z) :
  IZR (Math_round t) > IZR c <-> t >= IZR c + 0.5.
Proof.
  unfold Math_round.
  pose proof (Zfloor_bound (t + 0.5)) as [Hlo Hhi].
  split; intros H.
  - apply lt_IZR in H.
    assert (Hz : (c + 1 <= Zfloor (t + 0.5))%Z) by lia.
    apply IZR_le in Hz. rewrite plus_IZR in Hz. lra.
  - apply Rlt_gt, IZR_lt.
    assert (Hz : (c + 1 <= Zfloor (t + 0.5))%Z).
    { apply Zfloor_lub. rewrite plus_IZR. lra. }
    lia.
Qed.

Lemma currentTempOf_last (readings : list SensorReading.t)
  (reading : SensorReading.t) :
  currentTempOf (readings ++ [reading])
  = IZR (Math_round (SensorReading.temperature reading)).
Proof.
  unfold currentTempOf. rewrite length_app. cbn [length].
  replace (0 <? length readings + 1)%nat with true
    by (symmetry; apply Nat.ltb_lt; lia).
  replace (length readings + 1 - 1)%nat with (length readings) by lia.
  rewrite nth_error_app2, Nat.sub_diag by lia. reflexivity.
Qed.

(** The temperature colour of a row is decided on the rounded temperature
    of the last reading t: red from 35.5 up, yellow from 30.5 up to below
    35.5, green below 30.5; a sensor without readings is green. *)
Theorem rowTemperatureColor_thresholds :
  forall (readings : list SensorReading.t) (reading : SensorReading.t),
    let t := SensorReading.temperature reading in
    let color := getTemperatureColor (currentTempOf (readings ++ [reading])) in
    (t >= 35.5 -> color = "text-red-500"%string) /\
    (30.5 <= t < 35.5 -> color = "text-yellow-500"%string) /\
    (t < 30.5 -> color = "text-green-500"%string) /\
    getTemperatureColor (currentTempOf []) = "text-green-500"%string.
Proof.
  intros readings reading t color. subst color.
  rewrite currentTempOf_last. fold t. unfold getTemperatureColor.
  pose proof (Math_round_gt t 35) as H35.
  pose proof (Math_round_gt t 30) as H30.
  repeat split.
  - intros H. destruct (Rgt_dec (IZR (Math_round t)) 35) as [|n];
      [reflexivity|]. exfalso. apply n, H35. lra.
  - intros H. destruct (Rgt_dec (IZR (Math_round t)) 35) as [g|_].
    + apply H35 in g. lra.
    + destruct (Rgt_dec (IZR (Math_round t)) 30) as [|n]; [reflexivity|].
      exfalso. apply n, H30. lra.
  - intros H. destruct (Rgt_dec (IZR (Math_round t)) 35) as [g|_].
    + apply H35 in g. lra.
    + destruct (Rgt_dec (IZR (Math_round t)) 30) as [g|_]; [|reflexivity].
      apply H30 in g. lra.
  - unfold currentTempOf. cbn.
    destruct (Rgt_dec 0 35); [lra|]. destruct (Rgt_dec 0 30); [lra|].
    reflexivity.
Qed.

(** ** The sensors table *)

(** Clicking a column header sorts by that column; on the column the table
    is sorted by, a click flips the direction and a second click restores
    it; on another column the direction starts ascending. *)
Theorem handleSort_spec :
  forall (field : SortField) (state : SortState),
    sortField (handleSort field state) = field /\
    (sortField state = field ->
       sortDirection (handleSort field state) <> sortDirection state /\
       handleSort field (handleSort field state) = state) /\
    (sortField state <> field ->
       sortDirection (handleSort field state) = Asc /\
       sortDirection (handleSort field (handleSort field state)) = Desc).
Proof.
  intros field [f d]. unfold handleSort. cbn [sortField sortDirection].
  destruct field, f, d; cbn; repeat split;
    try congruence; intros H; try congruence; repeat split; congruence.
Qed.

Section SortGeneric.

Context {A : Type}.
Variable comparefn : A -> A -> R.
Variable key : A -> R.
Hypothesis comparefn_key : forall a b, comparefn a b = key a - key b.

Lemma insertSorted_permutation (x : A) (l : list A) :
  Permutation (insertSorted comparefn x l) (x :: l).
Proof.
  induction l as [|y l IH]; simpl; [reflexivity|].
  destruct (Rlt_dec 0 (comparefn x y)); [|reflexivity].
  rewrite IH. apply perm_swap.
Qed.

Lemma Array_sort_permutation (l : list A) : Permutation (Array_sort comparefn l) l.
Proof.
  induction l as [|x l IH]; simpl; [reflexivity|].
  rewrite insertSorted_permutation. now constructor.
Qed.

Lemma insertSorted_by_key (x : A) (l : list A) :
  StronglySorted (fun a b => key a <= key b) l ->
  StronglySorted (fun a b => key a <= key b) (insertSorted comparefn x l).
Proof.
  induction l as [|y l IH]; intros Hs; simpl.
  - repeat constructor.
  - inversion Hs as [|? ? Hs' Hy]; subst.
    destruct (Rlt_dec 0 (comparefn x y)) as [Hc|Hc];
      rewrite comparefn_key in Hc.
    + constructor; [now apply IH|].
      rewrite insertSorted_permutation. constructor; [lra | assumption].
    + constructor; [assumption|].
      constructor; [lra|].
      eapply Forall_impl; [|exact Hy]. cbn beta. intros z Hz. lra.
Qed.

Lemma Array_sort_by_key (l : list A) :
  StronglySorted (fun a b => key a <= key b) (Array_sort comparefn l).
Proof.
  induction l as [|x l IH]; simpl; [constructor|].
  now apply insertSorted_by_key.
Qed.

(** A list that is already in order is left as it is. *)
Lemma Array_sort_sorted_id (l : list A) :
  StronglySorted (fun a b => key a <= key b) l -> Array_sort comparefn l = l.
Proof.
  induction 1 as [|x l Hs IH Hx]; simpl; [reflexivity|].
  rewrite IH. destruct l as [|y l]; [reflexivity|]. simpl.
  destruct (Rlt_dec 0 (comparefn x y)) as [Hc|Hc]; [|reflexivity].
  rewrite comparefn_key in Hc. inversion Hx; subst. lra.
Qed.

End SortGeneric.

(** Sorted by "lastUpdated", the table shows the fetched sensors, each as
    often as it was fetched, ascending by [lastUpdated] when the direction is
    "asc" and descending when it is "desc"; sorting the result again changes
    nothing. *)
Theorem sortSensors_lastUpdated :
  forall (toLowerCase : string -> string) (localeCompare : string -> string -> R)
         (direction : SortDirection) (fetchedSensors : list TableSensor.t),
    let state := {| sortField := LastUpdated; sortDirection := direction |} in
    let sorted := sortSensors toLowerCase localeCompare state fetchedSensors in
    Permutation sorted fetchedSensors /\
    StronglySorted
      (fun a b =>
         match direction with
         | Asc => TableSensor.lastUpdated a <= TableSensor.lastUpdated b
         | Desc => TableSensor.lastUpdated a >= TableSensor.lastUpdated b
         end) sorted /\
    sortSensors toLowerCase localeCompare state sorted = sorted.
Proof.
  intros toLowerCase localeCompare direction fetched state sorted.
  subst sorted state. unfold sortSensors.
  destruct direction.
  - set (cmp := compareSensors toLowerCase localeCompare _).
    assert (Hk : forall a b,
               cmp a b = TableSensor.lastUpdated a - TableSensor.lastUpdated b)
      by reflexivity.
    split; [apply Array_sort_permutation|].
    split; [exact (Array_sort_by_key cmp _ Hk fetched)|].
    apply (Array_sort_sorted_id cmp _ Hk), (Array_sort_by_key cmp _ Hk).
  - set (cmp := compareSensors toLowerCase localeCompare _).
    assert (Hk : forall a b,
               cmp a b = - TableSensor.lastUpdated a - - TableSensor.lastUpdated b).
    { intros a b. subst cmp. unfold compareSensors. cbn. ring. }
    split; [apply Array_sort_permutation|].
    pose proof (Array_sort_by_key cmp _ Hk fetched) as Hs.
    split.
    + eapply StronglySorted_impl; [|exact Hs]. cbn beta. intros a b H. lra.
    + apply (Array_sort_sorted_id cmp _ Hk), Hs.
Qed.

(** ** Cards and temperature status *)

Lemma getCardBackgroundColor_cases (MIN MAX v : R) :
  (v < MIN /\ getCardBackgroundColor MIN MAX v = "bg-green-900"%string) \/
  (MIN <= v /\ MAX < v /\ getCardBackgroundColor MIN MAX v = "bg-red-900"%string) \/
  (MIN <= v <= MAX /\ getCardBackgroundColor MIN MAX v = "bg-yellow-500"%string).
Proof.
  unfold getCardBackgroundColor.
  destruct (Rlt_dec v MIN); [left; now split|].
  destruct (Rgt_dec v MAX); [right; left; repeat split; lra|].
  right; right. split; [lra | reflexivity].
Qed.

(** Whatever the two trip constants are, the colour of a card never gets
    milder when the velocity grows (green, then yellow, then red), and the
    card is yellow exactly for a velocity between the two constants, both
    included. *)
Theorem getCardBackgroundColor_monotone :
  forall (MIN MAX v1 v2 : R),
    v1 <= v2 ->
    (cardColorRank (getCardBackgroundColor MIN MAX v1)
     <= cardColorRank (getCardBackgroundColor MIN MAX v2))%nat /\
    (getCardBackgroundColor MIN MAX v1 = "bg-yellow-500"%string <->
     MIN <= v1 <= MAX).
Proof.
  intros MIN MAX v1 v2 Hle. split.
  - destruct (getCardBackgroundColor_cases MIN MAX v1)
      as [[? ->]|[(? & ? & ->)|[? ->]]];
      destruct (getCardBackgroundColor_cases MIN MAX v2)
        as [[? ->]|[(? & ? & ->)|[? ->]]];
      cbn; solve [lia | lra].
  - destruct (getCardBackgroundColor_cases MIN MAX v1)
      as [[? ->]|[(? & ? & ->)|[? ->]]]; split; intros Hyp;
      solve [discriminate | lra | reflexivity | assumption].
Qed.

Lemma getCardBackgroundColor_monotone_witness :
  (cardColorRank (getCardBackgroundColor 2.8%R 7.1%R 2.8%R)
   <= cardColorRank (getCardBackgroundColor 2.8%R 7.1%R 7.2%R))%nat /\
  (getCardBackgroundColor 2.8 7.1 2.8 = "bg-yellow-500"%string <->
   2.8 <= 2.8 <= 7.1).
Proof.
  apply (getCardBackgroundColor_monotone 2.8 7.1 2.8 7.2). lra.
Defined.

Lemma temperatureStatus_cases (alarm_ths : option R) (t : R) :
  let T := alarmThresholdOr35 alarm_ths in
  (t > T /\ temperatureStatus alarm_ths t = Critical) \/
  (t <= T /\ t > T * 0.7 /\ temperatureStatus alarm_ths t = Warning) \/
  (t <= T /\ t <= T * 0.7 /\ temperatureStatus alarm_ths t = Normal).
Proof.
  intros T. unfold temperatureStatus. fold T.
  destruct (Rgt_dec t T); [left; now split|].
  destruct (Rgt_dec t (T * 0.7)); [right; left; repeat split; lra|].
  right; right. repeat split; lra.
Qed.

(** For every alarm threshold, also a negative one, the temperature status
    of the second version of the page is monotone in the temperature. *)
Theorem temperatureStatus_monotone :
  forall (alarm_ths : option R) (t1 t2 : R),
    t1 <= t2 ->
    (severityRank (temperatureStatus alarm_ths t1)
     <= severityRank (temperatureStatus alarm_ths t2))%nat.
Proof.
  intros alarm t1 t2 Hle.
  destruct (temperatureStatus_cases alarm t1) as [[? ->]|[(? & ? & ->)|(? & ? & ->)]];
    destruct (temperatureStatus_cases alarm t2) as [[? ->]|[(? & ? & ->)|(? & ? & ->)]];
    cbn; solve [lia | lra].
Qed.

Lemma temperatureStatus_monotone_witness :
  (severityRank (temperatureStatus (Some (-10)%R) (-12)%R)
   <= severityRank (temperatureStatus (Some (-10)%R) (-8)%R))%nat.
Proof.
  apply (temperatureStatus_monotone (Some (-10)) (-12) (-8)). lra.
Defined.

Lemma temperatureStatusFixed_cases (t : R) :
  (t > 35 /\ temperatureStatusFixed t = Critical) \/
  (t <= 35 /\ t > 30 /\ temperatureStatusFixed t = Warning) \/
  (t <= 30 /\ temperatureStatusFixed t = Normal).
Proof.
  unfold temperatureStatusFixed.
  destruct (Rgt_dec t 35); [left; now split|].
  destruct (Rgt_dec t 30); [right; left; repeat split; lra|].
  right; right. split; [lra | reflexivity].
Qed.

(** Without an alarm threshold (or with the threshold 0) the second version
    of the page uses 35 and 24.5 = 35 * 0.7, so it never rates a temperature
    lower than the first version (35 and 30) does, and between 24.5 and 30 it
    rates it higher: Warning where the first version says Normal. *)
Theorem temperatureStatus_default :
  forall (alarm_ths : option R) (t : R),
    alarm_ths = None \/ alarm_ths = Some 0 ->
    (severityRank (temperatureStatusFixed t)
     <= severityRank (temperatureStatus alarm_ths t))%nat /\
    (24.5 < t <= 30 ->
       temperatureStatusFixed t = Normal /\
       temperatureStatus alarm_ths t = Warning).
Proof.
  intros alarm t Halarm.
  assert (HT : alarmThresholdOr35 alarm = 35).
  { destruct Halarm as [-> | ->]; [reflexivity|]. unfold alarmThresholdOr35.
    destruct (Req_dec_T 0 0); [reflexivity | lra]. }
  pose proof (temperatureStatus_cases alarm t) as H2. cbn zeta in H2.
  rewrite HT in H2.
  pose proof (temperatureStatusFixed_cases t) as H1.
  split.
  - destruct H1 as [[? ->]|[(? & ? & ->)|[? ->]]];
      destruct H2 as [[? ->]|[(? & ? & ->)|(? & ? & ->)]];
      cbn; solve [lia | lra].
  - intros Ht.
    destruct H1 as [[? ->]|[(? & ? & ->)|[? ->]]];
      destruct H2 as [[? ->]|[(? & ? & ->)|(? & ? & ->)]];
      solve [split; reflexivity | lra].
Qed.

Lemma temperatureStatus_default_witness :
  (severityRank (temperatureStatusFixed 27%R)
   <= severityRank (temperatureStatus None 27%R))%nat /\
  (24.5 < 27 <= 30 ->
     temperatureStatusFixed 27 = Normal /\ temperatureStatus None 27 = Warning).
Proof.
  apply (temperatureStatus_default None 27). now left.
Defined.

(** ** Dates *)

Lemma padStart0_twoDigits (n : nat) :
  (n < 100)%nat -> twoDigits (padStart0 (natToString n) 2) = true.
Proof.
  intros Hn.
  assert (Hall : forallb (fun n => twoDigits (padStart0 (natToString n) 2))
                   (seq 0 100) = true) by (vm_compute; reflexivity).
  rewrite forallb_forall in Hall. apply Hall, in_seq. lia.
Qed.

Lemma twoDigits_shape (s : string) :
  twoDigits s = true ->
  exists a b, s = String a (String b EmptyString) /\
              isDigit a = true /\ isDigit b = true.
Proof.
  destruct s as [|a [|b [|c s]]]; simpl; try discriminate.
  intros H. apply andb_prop in H. destruct H. now exists a, b.
Qed.

Lemma padStart0_twoFigures (n : nat) :
  (n < 100)%nat -> padStart0 (natToString n) 2 = twoFigures n.
Proof.
  intros Hn.
  assert (Hall : forallb (fun n => String.eqb (padStart0 (natToString n) 2)
                                     (twoFigures n))
                   (seq 0 100) = true) by (vm_compute; reflexivity).
  rewrite forallb_forall in Hall. apply String.eqb_eq, Hall, in_seq. lia.
Qed.

(** For a non-empty string that parses to a valid date, [formatRawTime]
    gives exactly eleven characters "DD/MM HH:MM": the tens and units
    figures of the UTC day, "/", those of the month counted from 1, " ",
    those of the hours, ":", and those of the minutes. *)
Theorem formatRawTime_shape :
  forall (Date : Type) (Date_new : string -> Date) (getTime : Date -> option R)
         (getUTCDate getUTCMonth getUTCHours getUTCMinutes : Date -> nat)
         (dateString : string) (time : R),
    dateString <> ""%string ->
    getTime (Date_new dateString) = Some time ->
    (getUTCDate (Date_new dateString) < 100)%nat ->
    (getUTCMonth (Date_new dateString) < 99)%nat ->
    (getUTCHours (Date_new dateString) < 100)%nat ->
    (getUTCMinutes (Date_new dateString) < 100)%nat ->
    let date := Date_new dateString in
    let result :=
      formatRawTime Date Date_new getTime getUTCDate getUTCMonth getUTCHours
        getUTCMinutes dateString in
    result
    = (twoFigures (getUTCDate date) ++ "/"
       ++ twoFigures (getUTCMonth date + 1) ++ " "
       ++ twoFigures (getUTCHours date) ++ ":"
       ++ twoFigures (getUTCMinutes date))%string /\
    String.length result = 11%nat /\
    twoDigits (twoFigures (getUTCDate date)) = true /\
    twoDigits (twoFigures (getUTCMonth date + 1)) = true /\
    twoDigits (twoFigures (getUTCHours date)) = true /\
    twoDigits (twoFigures (getUTCMinutes date)) = true.
Proof.
  intros Date Date_new getTime gD gM gH gN s time Hs Ht HD HM HH HN date result.
  assert (HM' : (gM date + 1 < 100)%nat) by (subst date; lia).
  assert (E : result = (twoFigures (gD date) ++ "/" ++ twoFigures (gM date + 1)
                        ++ " " ++ twoFigures (gH date) ++ ":"
                        ++ twoFigures (gN date))%string).
  { subst result. unfold formatRawTime.
    apply String.eqb_neq in Hs. rewrite Hs, Ht. fold date.
    now rewrite !padStart0_twoFigures by assumption. }
  split; [exact E|]. split; [rewrite E; reflexivity|].
  repeat split; rewrite <- padStart0_twoFigures by assumption;
    now apply padStart0_twoDigits.
Qed.

(** A run: a date that is the 5th of January, 09:07 UTC. *)
Lemma formatRawTime_shape_witness :
  formatRawTime unit (fun _ => tt) (fun _ => Some 0) (fun _ => 5%nat)
    (fun _ => 0%nat) (fun _ => 9%nat) (fun _ => 7%nat) "2025-01-05T09:07:00Z"
  = "05/01 09:07"%string.
Proof.
  destruct (formatRawTime_shape unit (fun _ => tt) (fun _ => Some 0)
              (fun _ => 5%nat) (fun _ => 0%nat) (fun _ => 9%nat)
              (fun _ => 7%nat) "2025-01-05T09:07:00Z" 0) as (E & _);
    try discriminate; try reflexivity; try lia.
Defined.

(** ** A sensor at rest *)

Lemma Forall_zero_nth (l : list R) :
  (forall i, (i < length l)%nat -> nth i l 0 = 0) -> Forall (fun v => v = 0) l.
Proof.
  intros H. apply Forall_forall. intros v Hv.
  destruct (In_nth l v 0 Hv) as (i & Hi & <-). now apply H.
Qed.

Lemma sumOfSquares_zero (l : list R) :
  Forall (fun v => v = 0) l -> sumOfSquares l = 0.
Proof.
  induction 1 as [|v l Hv Hl IH]; [reflexivity|].
  change (sumOfSquares (v :: l)) with (v * v + sumOfSquares l).
  rewrite IH, Hv. ring.
Qed.

(** When every raw sample equals the offset 512, the processed series is 0
    throughout in every unit, and rms, peak and peak-to-peak are all 0. *)
Theorem processData_at_rest :
  forall (n : nat) (selectedUnit : string) (timeInterval : R),
    (1 <= n)%nat ->
    let processedData := fst (processData (repeat 512 n) selectedUnit timeInterval) in
    let statistics := overallStatistics processedData in
    length processedData = n /\
    Forall (fun v => v = 0) processedData /\
    rms statistics = 0 /\ peak statistics = 0 /\ peakToPeak statistics = 0.
Proof.
  intros n unit dt Hn pd statistics.
  assert (Hlen : length pd = n).
  { subst pd. rewrite processData_length, repeat_length; [reflexivity|].
    destruct n; [lia | discriminate]. }
  assert (HG : adcToAccelerationG 512 defaultRange = 0).
  { rewrite adcToAccelerationG_default. lra. }
  assert (Hzero : Forall (fun v => v = 0) pd).
  { subst pd. unfold processData.
    destruct (String.eqb unit "Acceleration (G)"); cbn [fst].
    - rewrite map_repeat, HG. apply Forall_forall. intros v Hv.
      now apply repeat_spec in Hv.
    - destruct (String.eqb unit "Acceleration (mm/s²)"); cbn [fst];
        rewrite map_repeat, HG; unfold accelerationGToMmPerSecSquared;
        replace (0 * 9806.65) with 0 by ring.
      + apply Forall_forall. intros v Hv. now apply repeat_spec in Hv.
      + apply Forall_zero_nth. intros i Hi.
        rewrite accelerationToVelocity_length, repeat_length in Hi.
        change (accelerationToVelocity (repeat 0 n) dt)
          with (velocitiesAfter (repeat 0 n) dt (length (repeat 0 n) - 1)).
        rewrite repeat_length.
        replace (n - 1)%nat with (i + (n - 1 - i))%nat by lia.
        rewrite velocitiesAfter_prefix by lia.
        rewrite velocitiesAfter_constant by lia. ring. }
  assert (Hrms : rms statistics = 0).
  { subst statistics. unfold overallStatistics. cbn [rms].
    replace (0 <? length pd)%nat with true
      by (symmetry; apply Nat.ltb_lt; lia).
    rewrite fold_left_sumOfSquares, Rplus_0_l, sumOfSquares_zero by assumption.
    unfold Rdiv. rewrite Rmult_0_l. apply sqrt_0. }
  repeat split; try assumption.
  - subst statistics. unfold overallStatistics in *. cbn [rms peak] in *.
    rewrite Hrms. lra.
  - subst statistics. unfold overallStatistics in *. cbn [rms peakToPeak] in *.
    rewrite Hrms. lra.
Qed.

Lemma processData_at_rest_witness :
  Forall (fun v => v = 0) (fst (processData (repeat 512 8) "Velocity (mm/s)" 0.02)) /\
  rms (overallStatistics
         (fst (processData (repeat 512 8) "Velocity (mm/s)" 0.02))) = 0.
Proof.
  assert (H : (1 <= 8)%nat) by lia.
  destruct (processData_at_rest 8 "Velocity (mm/s)" 0.02 H)
    as (_ & Hz & Hr & _).
  split; assumption.
Defined.

(** ** Renderings *)

Example Number_toFixed_zero : Number_toFixed 0 3 = "0.000"%string.
Proof.
  unfold Number_toFixed, Math_floor.
  destruct (Rlt_dec 0 0); [lra|].
  replace (Zfloor (Rabs 0 * 10 ^ 3 + 0.5)) with 0%Z.
  - reflexivity.
  - symmetry. apply Zfloor_eq. rewrite Rabs_R0. simpl. lra.
Qed.

Example Number_toFixed_negative : Number_toFixed (-2.345) 2 = "-2.35"%string.
Proof.
  unfold Number_toFixed, Math_floor.
  destruct (Rlt_dec (-2.345) 0); [|lra].
  replace (Zfloor (Rabs (-2.345) * 10 ^ 2 + 0.5)) with 235%Z.
  - reflexivity.
  - symmetry. apply Zfloor_eq. rewrite Rabs_left by lra. simpl. lra.
Qed.

(** ** Integration commutes with a change of unit *)

Lemma nth_map_scale (k : R) (a : list R) (i : nat) :
  nth i (map (fun v => k * v) a) 0 = k * nth i a 0.
Proof.
  destruct (Nat.lt_ge_cases i (length a)) as [Hi|Hi].
  - rewrite (nth_indep _ 0 (k * 0)) by now rewrite length_map.
    apply (map_nth (fun v => k * v)).
  - rewrite !nth_overflow by (rewrite ?length_map; assumption). ring.
Qed.

Lemma velocitiesAfter_scale (k dt : R) (a : list R) (i : nat) :
  nth i (velocitiesAfter (map (fun v => k * v) a) dt i) 0
  = k * nth i (velocitiesAfter a dt i) 0.
Proof.
  induction i as [|i IH].
  - simpl. ring.
  - rewrite !velocitiesAfter_last, IH, !nth_map_scale. ring.
Qed.

(** The integration is linear in the accelerations: scaling every
    acceleration by k scales every velocity by k and keeps the length, so
    converting to mm/s² before integrating gives the same velocities as
    converting after. *)
Theorem accelerationToVelocity_scale :
  forall (k dt : R) (a : list R) (i : nat),
    length (accelerationToVelocity (map (fun v => k * v) a) dt)
    = length (accelerationToVelocity a dt) /\
    nth i (accelerationToVelocity (map (fun v => k * v) a) dt) 0
    = k * nth i (accelerationToVelocity a dt) 0.
Proof.
  intros k dt a i. split.
  - now rewrite !accelerationToVelocity_length, length_map.
  - destruct (Nat.le_gt_cases i (length a - 1)) as [Hi|Hi].
    + change (accelerationToVelocity (map (fun v => k * v) a) dt)
        with (velocitiesAfter (map (fun v => k * v) a) dt
                (length (map (fun v => k * v) a) - 1)).
      change (accelerationToVelocity a dt)
        with (velocitiesAfter a dt (length a - 1)).
      rewrite length_map.
      replace (length a - 1)%nat with (i + (length a - 1 - i))%nat by lia.
      rewrite !velocitiesAfter_prefix by lia.
      apply velocitiesAfter_scale.
    + rewrite !nth_overflow;
        [ring | | ]; rewrite accelerationToVelocity_length, ?length_map; lia.
Qed.
